(** * Field-level JSON persistence (bonus_auto_persist.py)

    A shallow embedding of the persistence engine of
    [src/bonus_auto_persist.py]: the two document-store helpers
    [_load_records] and [_save_records], the pass-through descriptors
    ([IdentityDescriptor], [JsonFilename], [RecordId]), the resolution
    functions [_json_filename] and [_record_id], the [Field] descriptor and
    the [Person] class, followed by the properties of the engine.

    Modelling choices, all local to this file:
    - Python values are the inductive [pyval]: [None], booleans, integers,
      floats, strings, lists, tuples, dictionaries with string keys, path
      objects and bytes.  Dictionaries with keys that are no strings are
      left out; an object of any other type is [VOpaque], known only
      through its truth value and the text [str()] gives for it.
    - A dictionary is an association list in insertion order.  Item
      assignment overwrites in place when the key is present and appends
      otherwise, as Python's [dict] does.
    - What the [json] module does is not part of the repository.  A file
      holds either a complete JSON text, identified with the value
      [json.load] parses from it, or a text that [json.load] rejects.
      [json.dump] writes a tuple as it writes a list, so what it stores for
      a value is the [json_image] of the value.
    - The file system is a finite map from path names to entries.  A path
      name stands for the file itself: two names of one file ([a] and
      [./a], links) are not related by the model.  A location that is an
      integer would be a file descriptor; no descriptor is open in the
      model.
    - Effects are threaded through a state-and-exception monad over the file
      system: a computation returns the new file system together with a
      value or the exception it raised. *)

From Stdlib Require Import ZArith String List Bool SpecFloat.
From stdpp Require Import gmap strings pretty.

#[local] Set Warnings "-register-all".
#[local] Open Scope string_scope.

(** ** Python values *)

Inductive pyval : Type :=
| VNone
| VBool (b : bool)
| VInt (n : Z)
| VStr (s : string)
| VList (xs : list pyval)
| VDict (kvs : list (string * pyval))
| VOpaque (truth : bool) (text : string)
| VFloat (x : spec_float)
| VTuple (xs : list pyval)
| VPath (path : string)     (* an os.PathLike object; [path] is its [str] *)
| VBytes (b : string).

(** The interpreter's [repr] of a float, a list, a tuple, a dictionary or
    bytes.  Its exact text (digits, quoting and escaping) plays no part in
    the engine, so it is left as an interface of the interpreter. *)
Class PyBuiltins : Type := { py_repr : pyval -> string }.

(** [bool(v)]: what [if v] and [v and ...] test. *)
Definition py_bool (v : pyval) : bool :=
  match v with
  | VNone => false
  | VBool b => b
  | VInt n => negb (n =? 0)%Z
  | VStr s => negb (s =? "")
  | VList xs => match xs with [] => false | _ => true end
  | VDict kvs => match kvs with [] => false | _ => true end
  | VOpaque truth _ => truth
  | VFloat x => match x with S754_zero _ => false | _ => true end
  | VTuple xs => match xs with [] => false | _ => true end
  | VPath _ => true
  | VBytes b => negb (b =? "")
  end.

(** [str(v)]. *)
Definition py_str `{PyBuiltins} (v : pyval) : string :=
  match v with
  | VNone => "None"
  | VBool true => "True"
  | VBool false => "False"
  | VInt n => pretty n
  | VStr s => s
  | VList _ | VDict _ => py_repr v
  | VOpaque _ text => text
  | VFloat _ | VTuple _ | VBytes _ => py_repr v
  | VPath path => path
  end.

(** ** Dictionaries *)

(** [d.get(key)], [None] when the key is missing. *)
Fixpoint dict_get {A : Type} (key : string) (d : list (string * A)) : option A :=
  match d with
  | [] => None
  | (k, v) :: rest => if k =? key then Some v else dict_get key rest
  end.

(** [d[key] = value]. *)
Fixpoint dict_set {A : Type} (key : string) (value : A) (d : list (string * A))
  : list (string * A) :=
  match d with
  | [] => [(key, value)]
  | (k, v) :: rest =>
      if k =? key then (k, value) :: rest else (k, v) :: dict_set key value rest
  end.

(** ** JSON *)

(** The values of JSON's own data model: [json.dump] writes them and
    [json.load] gives them back as they are.  A tuple is none, nor is a
    float that is no number. *)
Fixpoint json_ok (v : pyval) : bool :=
  match v with
  | VOpaque _ _ | VTuple _ | VPath _ | VBytes _ => false
  | VFloat x =>
      match x with S754_zero _ | S754_finite _ _ _ => true | _ => false end
  | VList xs => forallb json_ok xs
  | VDict kvs => forallb (fun kv => json_ok (snd kv)) kvs
  | _ => true
  end.

(** The values [json.dump] has an encoding for; for the others it raises
    [TypeError]. *)
Fixpoint json_serialisable (v : pyval) : bool :=
  match v with
  | VOpaque _ _ | VPath _ | VBytes _ => false
  | VList xs | VTuple xs => forallb json_serialisable xs
  | VDict kvs => forallb (fun kv => json_serialisable (snd kv)) kvs
  | _ => true
  end.

(** What [json.load] returns from the text [json.dump] writes for [v]:
    tuples have become lists. *)
Fixpoint json_image (v : pyval) : pyval :=
  match v with
  | VList xs | VTuple xs => VList (map json_image xs)
  | VDict kvs => VDict (map (fun kv => (fst kv, json_image (snd kv))) kvs)
  | _ => v
  end.

(** The same on the items of a dictionary. *)
Definition json_image_items (kvs : list (string * pyval))
  : list (string * pyval) :=
  map (fun kv => (fst kv, json_image (snd kv))) kvs.

(** The text of a file. *)
Inductive content : Type :=
| Text (v : pyval)   (* a complete JSON text; [v] is what json.load returns *)
| Malformed.         (* empty, cut short, or otherwise not JSON *)

(** ** File system *)

Inductive entry : Type :=
| RegularFile (may_read may_write : bool) (data : content)
| Directory
| NoParent.          (* a name under a directory that does not exist *)

(** A path with no entry names no file, in a directory where the file can be
    created. *)
Abbreviation fsys := (gmap string entry).

(** ** Exceptions and the monad *)

Inductive exn : Type :=
| FileNotFoundError
| PermissionError
| IsADirectoryError
| BadFileDescriptor
| JSONDecodeError
| TypeError
| AttributeError.

Inductive result (A : Type) : Type :=
| Ok (a : A)
| Raise (e : exn).
Arguments Ok {A} a.
Arguments Raise {A} e.

Definition M (A : Type) : Type := fsys -> fsys * result A.

Definition ret {A : Type} (a : A) : M A := fun fs => (fs, Ok a).

Definition raise {A : Type} (e : exn) : M A := fun fs => (fs, Raise e).

Definition bind {A B : Type} (m : M A) (k : A -> M B) : M B :=
  fun fs =>
    match m fs with
    | (fs', Ok a) => k a fs'
    | (fs', Raise e) => (fs', Raise e)
    end.

Notation "x <- m ;; k" := (bind m (fun x => k))
  (at level 100, m at next level, right associativity).

(** [try: body  except FileNotFoundError: handler]. *)
Definition try_except_FileNotFoundError {A : Type} (body handler : M A) : M A :=
  fun fs =>
    match body fs with
    | (fs', Raise FileNotFoundError) => handler fs'
    | r => r
    end.

(** ** The parts of the interpreter the engine calls *)

(** The path [open] is given: a str, an os.PathLike object or bytes name
    one. *)
Definition py_fspath (filename : pyval) : option string :=
  match filename with
  | VStr path | VPath path | VBytes path => Some path
  | _ => None
  end.

(** What [open] raises when it is given no path.  An integer would be
    taken as a file descriptor number; no descriptor is open in the
    model. *)
Definition not_a_path (filename : pyval) : exn :=
  match filename with
  | VInt _ | VBool _ => BadFileDescriptor
  | _ => TypeError
  end.

(** [open(filename, "r")], giving the text of the file. *)
Definition py_open_r (filename : pyval) : M content :=
  fun fs =>
    match py_fspath filename with
    | Some path =>
        match fs !! path with
        | None | Some NoParent => (fs, Raise FileNotFoundError)
        | Some Directory => (fs, Raise IsADirectoryError)
        | Some (RegularFile may_read _ data) =>
            if may_read then (fs, Ok data) else (fs, Raise PermissionError)
        end
    | None => (fs, Raise (not_a_path filename))
    end.

(** [open(filename, "w")], giving the path to write to.  The file is
    created if it is missing and cut to length zero if it exists. *)
Definition py_open_w (filename : pyval) : M string :=
  fun fs =>
    match py_fspath filename with
    | Some path =>
        match fs !! path with
        | None => (<[path := RegularFile true true Malformed]> fs, Ok path)
        | Some NoParent => (fs, Raise FileNotFoundError)
        | Some Directory => (fs, Raise IsADirectoryError)
        | Some (RegularFile may_read may_write _) =>
            if may_write
            then (<[path := RegularFile may_read may_write Malformed]> fs, Ok path)
            else (fs, Raise PermissionError)
        end
    | None => (fs, Raise (not_a_path filename))
    end.

(** [json.load(infile)]. *)
Definition json_load (infile : content) : M pyval :=
  match infile with
  | Text v => ret v
  | Malformed => raise JSONDecodeError
  end.

(** The file [e] once its text has been replaced by [c]. *)
Definition write_text (c : content) (e : entry) : entry :=
  match e with
  | RegularFile may_read may_write _ => RegularFile may_read may_write c
  | _ => e
  end.

(** [json.dump(obj, outfile, indent=4)] on a file just opened for writing.
    The encoder writes the text piece by piece; when it meets a value it
    cannot serialise it raises [TypeError], and the file keeps the pieces
    written so far, which are no complete JSON text. *)
Definition json_dump (obj : pyval) (outfile : string) : M unit :=
  fun fs =>
    if json_serialisable obj
    then (alter (write_text (Text (json_image obj))) outfile fs, Ok tt)
    else (alter (write_text Malformed) outfile fs, Raise TypeError).

(** [o.get(key, dflt)]; only a dictionary has the method. *)
Definition py_get (o : pyval) (key : string) (dflt : pyval) : M pyval :=
  match o with
  | VDict kvs => ret (default dflt (dict_get key kvs))
  | _ => raise AttributeError
  end.

(** [o[key] = value] for a string key, giving the updated object. *)
Definition py_setitem (o : pyval) (key : string) (value : pyval) : M pyval :=
  match o with
  | VDict kvs => ret (VDict (dict_set key value kvs))
  | _ => raise TypeError
  end.

(** ** Classes and instances *)

(** What a class attribute is an instance of. *)
Inductive class_attr : Type :=
| AnIdentityDescriptor
| AJsonFilename
| ARecordId
| AField
| AnOther.

(** [instance.__class__.__dict__.items()], in declaration order. *)
Abbreviation pyclass := (list (string * class_attr)).

Record pyobject : Type := {
  __class__ : pyclass;
  __dict__ : gmap string pyval
}.

(** ** The source, function by function *)

Definition _load_records (filename : pyval) : M pyval :=
  try_except_FileNotFoundError
    (infile <- py_open_r filename ;;
     json_load infile)
    (ret (VDict [])).

Definition _save_records (filename : pyval) (records : pyval) : M unit :=
  outfile <- py_open_w filename ;;
  json_dump records outfile.

Module IdentityDescriptor.

Definition __set__ (self_name : string) (instance : pyobject) (value : pyval)
  : pyobject :=
  {| __class__ := __class__ instance;
     __dict__ := <[self_name := value]> (__dict__ instance) |}.

Definition __get__ (self_name : string) (instance : pyobject) : pyval :=
  default VNone (__dict__ instance !! self_name).

End IdentityDescriptor.

Definition isinstance_JsonFilename (attr_value : class_attr) : bool :=
  match attr_value with AJsonFilename => true | _ => false end.

Definition isinstance_RecordId (attr_value : class_attr) : bool :=
  match attr_value with ARecordId => true | _ => false end.

(** The loop of [_json_filename] over the remaining items.  [getattr] on
    an attribute that is a [JsonFilename] calls the descriptor's
    [__get__], whose [self.name] is the attribute's name. *)
Fixpoint _json_filename_loop (items : list (string * class_attr))
  (instance : pyobject) : pyval :=
  match items with
  | [] => VNone
  | (attr_name, attr_value) :: rest =>
      if isinstance_JsonFilename attr_value
      then IdentityDescriptor.__get__ attr_name instance
      else _json_filename_loop rest instance
  end.

Definition _json_filename (instance : pyobject) : pyval :=
  _json_filename_loop (__class__ instance) instance.

(** The loop of [_record_id]; the result is a [str] or [None]. *)
Fixpoint _record_id_loop `{PyBuiltins} (items : list (string * class_attr))
  (instance : pyobject) : option string :=
  match items with
  | [] => None
  | (attr_name, attr_value) :: rest =>
      if isinstance_RecordId attr_value
      then Some (py_str (IdentityDescriptor.__get__ attr_name instance))
      else _record_id_loop rest instance
  end.

Definition _record_id `{PyBuiltins} (instance : pyobject) : option string :=
  _record_id_loop (__class__ instance) instance.

(** The truth value of a [str | None]. *)
Definition py_bool_opt (o : option string) : bool :=
  match o with
  | Some s => py_bool (VStr s)
  | None => py_bool VNone
  end.

Module Field.

(** The [match] unpacks the [str | None] that [_record_id] returns; the
    branch for [None] is the fall-through of the [if]. *)
Definition __get__ `{PyBuiltins} (self_name : string) (instance : pyobject)
  : M pyval :=
  if py_bool (_json_filename instance) && py_bool_opt (_record_id instance)
  then
    match _record_id instance with
    | Some record_id =>
        all_records <- _load_records (_json_filename instance) ;;
        record <- py_get all_records record_id (VDict []) ;;
        py_get record self_name VNone
    | None => ret VNone
    end
  else ret VNone.

Definition __set__ `{PyBuiltins} (self_name : string) (instance : pyobject)
  (value : pyval) : M unit :=
  if py_bool (_json_filename instance) && py_bool_opt (_record_id instance)
  then
    match _record_id instance with
    | Some record_id =>
        all_records <- _load_records (_json_filename instance) ;;
        record <- py_get all_records record_id (VDict []) ;;
        record <- py_setitem record self_name value ;;
        all_records <- py_setitem all_records record_id record ;;
        _save_records (_json_filename instance) all_records
    | None => ret tt
    end
  else ret tt.

End Field.

Module Person.

(** The items of the class body.  The entries the interpreter adds on its
    own ([__module__], [__doc__] and the like) are no descriptors and are
    left out. *)
Definition class : list (string * class_attr) :=
  [ ("filename", AJsonFilename);
    ("person_id", ARecordId);
    ("name", AField);
    ("email", AField);
    ("age", AField);
    ("__init__", AnOther) ].

(** [Person(filename, person_id=None)]. *)
Definition __init__ (filename : pyval) (person_id : option pyval) : pyobject :=
  let self := {| __class__ := class; __dict__ := ∅ |} in
  let self := IdentityDescriptor.__set__ "filename" self filename in
  let self :=
    IdentityDescriptor.__set__ "person_id" self (default VNone person_id) in
  self.

End Person.

(** The script under [if __name__ == '__main__'], up to the lookup it
    prints.  Each assignment to [name], [email] or [age] is a call of
    [Field.__set__], these attributes being [Field]s of the class. *)
Definition main `{PyBuiltins} : M pyval :=
  let marketing_target_1 :=
    Person.__init__ (VStr "../datafiles/people.json") (Some (VStr "person-1")) in
  _ <- Field.__set__ "name" marketing_target_1 (VStr "James Schue") ;;
  _ <- Field.__set__ "email" marketing_target_1 (VStr "jschue@aol.com") ;;
  _ <- Field.__set__ "age" marketing_target_1 (VInt 42) ;;
  let marketing_target_2 :=
    Person.__init__ (VStr "../datafiles/people.json") (Some (VStr "person-2")) in
  _ <- Field.__set__ "name" marketing_target_2 (VStr "Patricia Kaike") ;;
  _ <- Field.__set__ "email" marketing_target_2 (VStr "fastbaker91@gmail.com") ;;
  _ <- Field.__set__ "age" marketing_target_2 (VInt 36) ;;
  let lookup_person :=
    Person.__init__ (VStr "../datafiles/people.json") (Some (VStr "person-1")) in
  Field.__get__ "name" lookup_person.

(** ** The accessor contract

    The two operations of the field accessor as the specification words
    them, on a location and a record key that have already been resolved.
    [Field.__get__] and [Field.__set__] are compared with them below. *)

Module Accessor.

Definition read (location : pyval) (record_key : option string)
  (field_name : string) : M pyval :=
  match record_key with
  | Some key =>
      if py_bool location && negb (key =? "") then
        doc <- _load_records location ;;
        record <- py_get doc key (VDict []) ;;
        py_get record field_name VNone
      else ret VNone
  | None => ret VNone
  end.

Definition write (location : pyval) (record_key : option string)
  (field_name : string) (value : pyval) : M unit :=
  match record_key with
  | Some key =>
      if py_bool location && negb (key =? "") then
        doc <- _load_records location ;;
        record <- py_get doc key (VDict []) ;;
        record <- py_setitem record field_name value ;;
        doc <- py_setitem doc key record ;;
        _save_records location doc
      else ret tt
  | None => ret tt
  end.

End Accessor.

(** ** Observations used in the statements *)

(** The first attribute of the class, in declaration order, whose value
    passes [tag]. *)
Fixpoint first_tagged (tag : class_attr -> bool)
  (items : list (string * class_attr)) : option string :=
  match items with
  | [] => None
  | (attr_name, attr_value) :: rest =>
      if tag attr_value then Some attr_name else first_tagged tag rest
  end.

(** The store at [path] holds the document [d]: either there is no file yet
    and [d] is empty, or the file can be read and written and its text is
    the JSON object [d]. *)
Definition holds_document (fs : fsys) (path : string)
  (d : list (string * pyval)) : Prop :=
  (fs !! path = None ∧ d = []) ∨
  fs !! path = Some (RegularFile true true (Text (VDict d))).

(** The record stored under [key] in the document [d], empty when the key
    is missing; [None] when what is stored there is no JSON object. *)
Definition record_of (d : list (string * pyval)) (key : string)
  : option (list (string * pyval)) :=
  match dict_get key d with
  | None => Some []
  | Some (VDict r) => Some r
  | Some _ => None
  end.

(** The document after field [field] of record [key] is given the value
    [value]. *)
Definition updated (d : list (string * pyval)) (key : string)
  (r : list (string * pyval)) (field : string) (value : pyval)
  : list (string * pyval) :=
  dict_set key (VDict (dict_set field value r)) d.

(** What a read of field [field] of record [key] gives on the document
    [d]. *)
Definition lookup_field (d : list (string * pyval)) (key field : string)
  : result pyval :=
  match dict_get key d with
  | None => Ok VNone
  | Some (VDict r) => Ok (default VNone (dict_get field r))
  | Some _ => Raise AttributeError
  end.

(** An instance is bound to file [loc] and record [key]. *)
Definition bound `{PyBuiltins} (instance : pyobject) (loc key : string) : Prop :=
  _json_filename instance = VStr loc ∧ loc ≠ "" ∧
  _record_id instance = Some key ∧ key ≠ "".

(** The guard of [Field.__get__] and [Field.__set__]. *)
Definition guard `{PyBuiltins} (instance : pyobject) : bool :=
  py_bool (_json_filename instance) && py_bool_opt (_record_id instance).

(** An instance passes the guard, its location names the file [loc], as a
    str, a path object or bytes, and its record key is [key]. *)
Definition opens `{PyBuiltins} (instance : pyobject) (loc key : string) : Prop :=
  guard instance = true ∧
  py_fspath (_json_filename instance) = Some loc ∧
  _record_id instance = Some key.

(** ** Sample data for the examples *)

Module Sample.

(** A stand-in for the interpreter's [repr]; no example applies it. *)
Definition builtins : PyBuiltins := {| py_repr := fun _ => "[...]" |}.

Definition person_1 : pyobject :=
  Person.__init__ (VStr "people.json") (Some (VStr "person-1")).

Definition person_2 : pyobject :=
  Person.__init__ (VStr "people.json") (Some (VStr "person-2")).

(** [Person("people.json")]: the identity is left at its default. *)
Definition anonymous : pyobject :=
  Person.__init__ (VStr "people.json") None.

(** [people.json] with one record, whose [email] is an explicit null. *)
Definition one_person : list (string * pyval) :=
  [("person-1", VDict [("name", VStr "James Schue"); ("email", VNone)])].

Definition store : fsys :=
  {[ "people.json" := RegularFile true true (Text (VDict one_person)) ]}.

(** A class that tags two attributes of each kind. *)
Definition twice_tagged : list (string * class_attr) :=
  [ ("primary", AJsonFilename);
    ("key", ARecordId);
    ("backup", AJsonFilename);
    ("alias", ARecordId);
    ("name", AField) ].

Definition mirrored : pyobject :=
  {| __class__ := twice_tagged;
     __dict__ := {[ "primary" := VStr "a.json"; "key" := VStr "k";
                    "backup" := VStr "b.json"; "alias" := VStr "l" ]} |}.

End Sample.

(** ** Further observations on the store *)

(** The record keys of a document, in the order of the file. *)
Definition keys {A : Type} (d : list (string * A)) : list string := d.*1.

(** Whether [key] is a key of [d]. *)
Definition has_key {A : Type} (key : string) (d : list (string * A)) : bool :=
  match dict_get key d with Some _ => true | None => false end.

(** ** example_1_logging.py

    An instance is its [__dict__]; what [print] writes is kept as the list
    of lines printed so far.  The classes that use the descriptor have no
    attribute [_value] of their own, so [instance._value] is the entry of
    the instance's [__dict__]. *)

Module Logging.

Definition IO (A : Type) : Type := list string → list string * result A.

Definition io_ret {A : Type} (a : A) : IO A := fun out => (out, Ok a).

Definition io_bind {A B : Type} (m : IO A) (k : A → IO B) : IO B :=
  fun out =>
    match m out with
    | (out', Ok a) => k a out'
    | (out', Raise e) => (out', Raise e)
    end.

(** [print(line)]. *)
Definition print (line : string) : IO unit :=
  fun out => ((out ++ [line])%list, Ok tt).

Module LogAccess.

Definition __get__ (self_name : string) (instance : gmap string pyval)
  : IO pyval :=
  io_bind (print ("I'm reading from a attribute " ++ self_name)) (fun _ =>
  fun out =>
    match instance !! "_value" with
    | Some v => (out, Ok v)
    | None => (out, Raise AttributeError)
    end).

(** The value returned is the instance after the assignment. *)
Definition __set__ (self_name : string) (instance : gmap string pyval)
  (value : pyval) : IO (gmap string pyval) :=
  io_bind (print ("I'm writing to attribute " ++ self_name)) (fun _ =>
  io_ret (<["_value" := value]> instance)).

End LogAccess.

(** The script of the file: [name] and [email] are the two [LogAccess]
    attributes of its class [Person]; the last line printed is [str]
    of what the read of [name] returned. *)
Definition main `{PyBuiltins} : IO unit :=
  let p1 : gmap string pyval := ∅ in
  io_bind (LogAccess.__set__ "name" p1 (VStr "James Nasium")) (fun p1 =>
  io_bind (LogAccess.__set__ "email" p1 (VStr "jim.nasium@aol.com")) (fun p1 =>
  io_bind (LogAccess.__get__ "name" p1) (fun name =>
  print (py_str name)))).

End Logging.

(** ** example_2_validation.py

    A character of a string is a code point below 256; among these the
    characters [\d] matches are the ten digits [0] to [9].  The classes
    that use the descriptor have no attribute of their own under the name
    the descriptor stores to. *)

Module Validation.

Import Stdlib.Strings.Ascii.

(** The pieces of the pattern: a literal character or [\d]. *)
Inductive atom : Type :=
| Lit (c : ascii)
| Digit.

Definition is_digit (c : ascii) : bool :=
  (48 <=? nat_of_ascii c)%nat && (nat_of_ascii c <=? 57)%nat.

Definition atom_matches (a : atom) (c : ascii) : bool :=
  match a with
  | Lit c' => Ascii.eqb c' c
  | Digit => is_digit c
  end.

(** Matching the atoms one after the other from the start of [s]; the
    result is what is left of [s]. *)
Fixpoint match_atoms (p : list atom) (s : string) : option string :=
  match p with
  | [] => Some s
  | a :: p' =>
      match s with
      | EmptyString => None
      | String c s' => if atom_matches a c then match_atoms p' s' else None
      end
  end.

(** [$]: the end of the string, or just before a newline that ends it. *)
Definition at_end (s : string) : bool :=
  match s with
  | EmptyString => true
  | String c EmptyString => Ascii.eqb c "010"%char
  | _ => false
  end.

(** [^\(\d{3}\) \d{3}-\d{4}$] *)
Definition pattern : list atom :=
  [ Lit "("; Digit; Digit; Digit; Lit ")"; Lit " ";
    Digit; Digit; Digit; Lit "-"; Digit; Digit; Digit; Digit ].

(** [bool(re.match(pattern, value))]; [re.match] takes a string only. *)
Definition re_match (p : list atom) (value : pyval) : result bool :=
  match value with
  | VStr s =>
      Ok match match_atoms p s with
         | Some rest => at_end rest
         | None => false
         end
  | _ => Raise TypeError
  end.

Module PhoneNumber.

(** [getattr(instance, f"_{self.name}")]. *)
Definition __get__ (self_name : string) (instance : gmap string pyval)
  : result pyval :=
  match instance !! ("_" ++ self_name) with
  | Some v => Ok v
  | None => Raise AttributeError
  end.

(** The instance after the call, and how the call ended. *)
Definition __set__ (self_name : string) (instance : gmap string pyval)
  (value : pyval) : gmap string pyval * result unit :=
  match re_match pattern value with
  | Ok true => (<["_" ++ self_name := value]> instance, Ok tt)
  | Ok false => (instance, Raise AttributeError)
  | Raise e => (instance, Raise e)
  end.

End PhoneNumber.

(** The script of the file, giving the person, the company and how the
    script ended.  [name] is a plain attribute, [phone] a [PhoneNumber]
    in both classes. *)
Definition main : gmap string pyval * gmap string pyval * result unit :=
  let p : gmap string pyval := ∅ in
  let p := <["name" := VStr "Patricia Kaike"]> p in
  let c : gmap string pyval := ∅ in
  match PhoneNumber.__set__ "phone" p (VStr "(800) 555-1212") with
  | (p, Ok _) =>
      match PhoneNumber.__set__ "phone" c (VStr "unknown") with
      | (c, r) => (p, c, r)
      end
  | (p, Raise e) => (p, c, Raise e)
  end.

(** A string of the form [(ddd) ddd-dddd]. *)
Definition phone_text (area exchange line : list ascii) : string :=
  string_of_list_ascii
    ("("%char :: area ++ ")"%char :: " "%char :: exchange ++ "-"%char :: line)%list.

End Validation.

(** ** Dictionaries: lookup after assignment *)

Section Dict.
Context {A : Type}.
Implicit Types (d : list (string * A)) (k : string) (v : A).

Lemma dict_get_set_eq d k v : dict_get k (dict_set k v d) = Some v.
Proof.
  induction d as [|[k0 v0] d IH]; simpl.
  - by rewrite String.eqb_refl.
  - destruct (k0 =? k) eqn:E; simpl; rewrite E; [done | exact IH].
Qed.

Lemma dict_get_set_ne d k k' v :
  k ≠ k' → dict_get k' (dict_set k v d) = dict_get k' d.
Proof.
  intros Hne. induction d as [|[k0 v0] d IH]; simpl.
  - destruct (String.eqb_spec k k'); [contradiction | done].
  - destruct (String.eqb_spec k0 k) as [->|Hk]; simpl.
    + destruct (String.eqb_spec k k'); [contradiction | done].
    + by rewrite IH.
Qed.

Lemma dict_set_twice d k v v' :
  dict_set k v (dict_set k v' d) = dict_set k v d.
Proof.
  induction d as [|[k0 v0] d IH]; simpl.
  - by rewrite String.eqb_refl.
  - destruct (k0 =? k) eqn:E; simpl; rewrite E; [done | by rewrite IH].
Qed.

End Dict.

Lemma json_ok_dict_set d k v :
  json_ok v = true → json_ok (VDict d) = true →
  json_ok (VDict (dict_set k v d)) = true.
Proof.
  intros Hv. induction d as [|[k0 v0] d IH]; simpl.
  - by rewrite Hv.
  - intros [H0 Hd]%andb_prop. destruct (k0 =? k); simpl.
    + by rewrite Hv, Hd.
    + rewrite H0. exact (IH Hd).
Qed.

Lemma json_ok_updated d key r field value :
  json_ok value = true → json_ok (VDict d) = true →
  record_of d key = Some r →
  json_ok (VDict (updated d key r field value)) = true.
Proof.
  intros Hv Hd Hr. unfold updated. apply json_ok_dict_set; [|done].
  apply json_ok_dict_set; [done|].
  unfold record_of in Hr. destruct (dict_get key d) as [x|] eqn:E.
  - destruct x; try discriminate. injection Hr as <-.
    clear -Hd E. induction d as [|[k0 v0] d IH]; simpl in *; [done|].
    apply andb_prop in Hd as [H0 Hd].
    destruct (k0 =? key); [by injection E as -> | by apply IH].
  - by injection Hr as <-.
Qed.

(** ** What [json.dump] writes and [json.load] gives back *)

(** Induction on a value, with the property known of the values inside
    a list, a tuple or a dictionary. *)
Lemma pyval_nested_ind (P : pyval → Prop) :
  (∀ v, (∀ xs, v ≠ VList xs) → (∀ xs, v ≠ VTuple xs) →
        (∀ kvs, v ≠ VDict kvs) → P v) →
  (∀ xs, Forall P xs → P (VList xs)) →
  (∀ xs, Forall P xs → P (VTuple xs)) →
  (∀ kvs, Forall (λ kv, P kv.2) kvs → P (VDict kvs)) →
  ∀ v, P v.
Proof.
  intros Hatom Hlist Htuple Hdict. fix IH 1. intros v.
  destruct v as [| | | |xs|kvs| | |xs| |]; try (by apply Hatom).
  - apply Hlist. revert xs. fix IHxs 1. intros [|x xs]; constructor.
    + apply IH.
    + apply IHxs.
  - apply Hdict. revert kvs. fix IHkvs 1. intros [|[k x] kvs]; constructor.
    + apply IH.
    + apply IHkvs.
  - apply Htuple. revert xs. fix IHxs 1. intros [|x xs]; constructor.
    + apply IH.
    + apply IHxs.
Qed.

(** A value of JSON's data model is written, and read back as it is. *)
Lemma json_ok_image v :
  json_ok v = true → json_serialisable v = true ∧ json_image v = v.
Proof.
  induction v as [v Hl Ht Hd|xs IH|xs IH|kvs IH] using pyval_nested_ind.
  - destruct v; try done; exfalso;
      first [by eapply Hl | by eapply Hd | by eapply Ht].
  - simpl. intros Hok. induction IH as [|x xs Hx _ IHxs]; [done|].
    simpl in *. apply andb_prop in Hok as [Hx' Hxs'].
    destruct (Hx Hx') as [-> ->]. destruct (IHxs Hxs') as [-> Heq].
    split; [done|]. by injection Heq as ->.
  - done.
  - simpl. intros Hok. induction IH as [|[k x] kvs Hx _ IHkvs]; [done|].
    simpl in *. apply andb_prop in Hok as [Hx' Hkvs'].
    destruct (Hx Hx') as [-> ->]. destruct (IHkvs Hkvs') as [-> Heq].
    split; [done|]. by injection Heq as ->.
Qed.

Lemma json_serialisable_image v :
  json_serialisable (json_image v) = json_serialisable v.
Proof.
  induction v as [v Hl Ht Hd|xs IH|xs IH|kvs IH] using pyval_nested_ind.
  - destruct v; try done; exfalso;
      first [by eapply Hl | by eapply Hd | by eapply Ht].
  - simpl. induction IH as [|x xs Hx _ IHxs]; [done|].
    simpl. by rewrite Hx, IHxs.
  - simpl. induction IH as [|x xs Hx _ IHxs]; [done|].
    simpl. by rewrite Hx, IHxs.
  - simpl. induction IH as [|[k x] kvs Hx _ IHkvs]; [done|].
    simpl in *. by rewrite Hx, IHkvs.
Qed.

Lemma json_image_twice v : json_image (json_image v) = json_image v.
Proof.
  induction v as [v Hl Ht Hd|xs IH|xs IH|kvs IH] using pyval_nested_ind.
  - destruct v; try done; exfalso;
      first [by eapply Hl | by eapply Hd | by eapply Ht].
  - simpl. f_equal. induction IH as [|x xs Hx _ IHxs]; [done|].
    simpl. by rewrite Hx, IHxs.
  - simpl. f_equal. induction IH as [|x xs Hx _ IHxs]; [done|].
    simpl. by rewrite Hx, IHxs.
  - simpl. f_equal. induction IH as [|[k x] kvs Hx _ IHkvs]; [done|].
    simpl in *. by rewrite Hx, IHkvs.
Qed.

Lemma json_image_VDict kvs :
  json_image (VDict kvs) = VDict (json_image_items kvs).
Proof. reflexivity. Qed.

Lemma json_image_items_twice kvs :
  json_image_items (json_image_items kvs) = json_image_items kvs.
Proof.
  pose proof (json_image_twice (VDict kvs)) as Heq.
  rewrite !json_image_VDict in Heq. by injection Heq.
Qed.

Lemma dict_get_image k d :
  dict_get k (json_image_items d) = json_image <$> dict_get k d.
Proof.
  induction d as [|[k0 v0] d IH]; simpl; [done|].
  by destruct (k0 =? k).
Qed.

Lemma dict_set_image k v d :
  json_image_items (dict_set k v d)
  = dict_set k (json_image v) (json_image_items d).
Proof.
  induction d as [|[k0 v0] d IH]; simpl; [done|].
  destruct (k0 =? k); simpl; [done | by rewrite IH].
Qed.

Lemma record_of_image d key :
  record_of (json_image_items d) key = json_image_items <$> record_of d key.
Proof.
  unfold record_of. rewrite dict_get_image.
  destruct (dict_get key d) as [x|]; [|done]. by destruct x.
Qed.

Lemma json_image_updated d key r field value :
  json_image (VDict (updated d key r field value))
  = VDict (updated (json_image_items d) key (json_image_items r) field
             (json_image value)).
Proof.
  rewrite json_image_VDict. unfold updated.
  rewrite dict_set_image. rewrite json_image_VDict. by rewrite dict_set_image.
Qed.

(** Whether the updated document can be written depends on the document
    and the value only through what [json.dump] makes of them. *)
Lemma json_serialisable_updated_image d key r field value :
  json_serialisable
    (VDict (updated (json_image_items d) key (json_image_items r) field value))
  = json_serialisable (VDict (updated d key r field value)).
Proof.
  rewrite <- (json_serialisable_image (VDict (updated (json_image_items d) _ _ _ _))).
  rewrite <- (json_serialisable_image (VDict (updated d _ _ _ _))).
  by rewrite !json_image_updated, !json_image_items_twice.
Qed.

(** ** Resolution of the location and the identity *)

Lemma _json_filename_loop_first items instance :
  _json_filename_loop items instance =
  match first_tagged isinstance_JsonFilename items with
  | Some a => IdentityDescriptor.__get__ a instance
  | None => VNone
  end.
Proof.
  induction items as [|[a v] items IH]; simpl; [done|].
  by destruct (isinstance_JsonFilename v).
Qed.

Lemma _record_id_loop_first `{PyBuiltins} items instance :
  _record_id_loop items instance =
  match first_tagged isinstance_RecordId items with
  | Some a => Some (py_str (IdentityDescriptor.__get__ a instance))
  | None => None
  end.
Proof.
  induction items as [|[a v] items IH]; simpl; [done|].
  by destruct (isinstance_RecordId v).
Qed.

(** The descriptors refine the accessor contract on the resolved location
    and key. *)
Lemma Field_get_refines `{PyBuiltins} self_name instance :
  Field.__get__ self_name instance =
  Accessor.read (_json_filename instance) (_record_id instance) self_name.
Proof.
  unfold Field.__get__, Accessor.read.
  destruct (_record_id instance) as [k|]; simpl; [done|].
  by rewrite andb_false_r.
Qed.

Lemma Field_set_refines `{PyBuiltins} self_name instance value :
  Field.__set__ self_name instance value =
  Accessor.write (_json_filename instance) (_record_id instance) self_name value.
Proof.
  unfold Field.__set__, Accessor.write.
  destruct (_record_id instance) as [k|]; simpl; [done|].
  by rewrite andb_false_r.
Qed.

(** ** The store helpers on a path *)

Lemma nonempty_truthy s : s ≠ "" → negb (s =? "") = true.
Proof. intros Hs. by destruct (String.eqb_spec s ""). Qed.

Lemma _load_records_missing path (fs : fsys) :
  fs !! path = None ∨ fs !! path = Some NoParent →
  _load_records (VStr path) fs = (fs, Ok (VDict [])).
Proof.
  intros Hm. unfold _load_records, try_except_FileNotFoundError, bind, py_open_r.
  cbn [py_fspath]. by destruct Hm as [-> | ->].
Qed.

Lemma _load_records_text path (fs : fsys) w v :
  fs !! path = Some (RegularFile true w (Text v)) →
  _load_records (VStr path) fs = (fs, Ok v).
Proof.
  intros Hf. unfold _load_records, try_except_FileNotFoundError, bind, py_open_r.
  cbn [py_fspath]. by rewrite Hf.
Qed.

Lemma _load_records_document path (fs : fsys) d :
  holds_document fs path d →
  _load_records (VStr path) fs = (fs, Ok (VDict d)).
Proof.
  intros [[Hm ->] | Hf].
  - apply _load_records_missing. by left.
  - by apply _load_records_text with (w := true).
Qed.

(** Loading never changes the file system. *)
Lemma _load_records_pure filename (fs fs' : fsys) res :
  _load_records filename fs = (fs', res) → fs' = fs.
Proof.
  unfold _load_records, try_except_FileNotFoundError, bind, py_open_r,
    json_load, ret, raise.
  intros Heq.
  destruct (py_fspath filename) as [path|] eqn:Hp;
    [|destruct filename; try discriminate Hp; simpl in Heq; by simplify_eq].
  destruct (fs !! path) as [[r w [v|]| |]|]; simplify_eq; try done;
    destruct r; simplify_eq; done.
Qed.

Lemma _save_records_document path (fs : fsys) d doc :
  holds_document fs path d → json_ok doc = true →
  _save_records (VStr path) doc fs =
  (<[path := RegularFile true true (Text doc)]> fs, Ok tt).
Proof.
  intros Hd Hok. destruct (json_ok_image doc Hok) as [Hs Hi].
  unfold _save_records, bind, py_open_w, json_dump. cbn [py_fspath].
  destruct Hd as [[-> _] | ->]; rewrite Hs, Hi; by rewrite alter_insert_eq.
Qed.

(** ** Reading and writing through a bound instance *)

(** Case analysis on the test of the conditional in hypothesis [H]. *)
Ltac case_ok H Hok :=
  match type of H with
  | (if ?c then _ else _) = _ => destruct c eqn:Hok; [|discriminate]
  end.

Section Bound.
Context `{PyBuiltins}.
Variables (instance : pyobject) (loc key : string).
Hypothesis Hbound : bound instance loc key.

Lemma Field_set_bound self_name value :
  Field.__set__ self_name instance value =
  (all_records <- _load_records (VStr loc) ;;
   record <- py_get all_records key (VDict []) ;;
   record <- py_setitem record self_name value ;;
   all_records <- py_setitem all_records key record ;;
   _save_records (VStr loc) all_records).
Proof.
  destruct Hbound as (Hl & Hl' & Hk & Hk').
  unfold Field.__set__. rewrite Hl, Hk. simpl.
  by rewrite !nonempty_truthy.
Qed.

Lemma Field_get_bound self_name :
  Field.__get__ self_name instance =
  (all_records <- _load_records (VStr loc) ;;
   record <- py_get all_records key (VDict []) ;;
   py_get record self_name VNone).
Proof.
  destruct Hbound as (Hl & Hl' & Hk & Hk').
  unfold Field.__get__. rewrite Hl, Hk. simpl.
  by rewrite !nonempty_truthy.
Qed.

(** A write on a store that holds a document. *)
Lemma Field_set_document self_name value (fs : fsys) d r :
  holds_document fs loc d → record_of d key = Some r →
  json_ok (VDict (updated d key r self_name value)) = true →
  Field.__set__ self_name instance value fs =
  (<[loc := RegularFile true true
             (Text (VDict (updated d key r self_name value)))]> fs, Ok tt).
Proof.
  intros Hd Hr Hok. rewrite Field_set_bound. unfold bind at 1.
  rewrite (_load_records_document _ _ _ Hd).
  unfold record_of in Hr. unfold bind, py_get, py_setitem, ret, raise.
  destruct (dict_get key d) as [x|] eqn:E; simpl.
  - destruct x; try discriminate. injection Hr as ->.
    by apply _save_records_document with (d := d).
  - injection Hr as <-. by apply _save_records_document with (d := d).
Qed.

(** A read on a store whose file holds the JSON object [d]. *)
Lemma Field_get_document self_name (fs : fsys) w d r :
  fs !! loc = Some (RegularFile true w (Text (VDict d))) →
  record_of d key = Some r →
  Field.__get__ self_name instance fs =
  (fs, Ok (default VNone (dict_get self_name r))).
Proof.
  intros Hf Hr. rewrite Field_get_bound. unfold bind at 1.
  rewrite (_load_records_text _ _ _ _ Hf).
  unfold record_of in Hr. unfold bind, py_get, ret, raise.
  destruct (dict_get key d) as [x|] eqn:E; simpl.
  - destruct x; try discriminate. by injection Hr as ->.
  - by injection Hr as <-.
Qed.

End Bound.

(** ** Writes that do not go through *)

Section Unbound.
Context `{PyBuiltins}.
Implicit Types (instance : pyobject) (fs : fsys).

Lemma Field_set_unguarded self_name instance value fs :
  guard instance = false →
  Field.__set__ self_name instance value fs = (fs, Ok tt).
Proof. unfold guard, Field.__set__. by intros ->. Qed.

Lemma Field_get_unguarded self_name instance fs :
  guard instance = false →
  Field.__get__ self_name instance fs = (fs, Ok VNone).
Proof. unfold guard, Field.__get__. by intros ->. Qed.

Lemma bound_opens instance loc key :
  bound instance loc key → opens instance loc key.
Proof.
  intros (Hl & Hl' & Hk & Hk'). unfold opens, guard. rewrite Hl, Hk. simpl.
  by rewrite !nonempty_truthy.
Qed.

(** Past the guard the key is a string; the location names a file or is
    nothing [open] takes for a path. *)
Lemma guard_cases instance :
  guard instance = false ∨
  (∃ loc key, opens instance loc key) ∨
  (guard instance = true ∧ py_fspath (_json_filename instance) = None).
Proof.
  destruct (guard instance) eqn:G; [right | by left].
  pose proof G as G'. unfold guard in G'.
  apply andb_prop in G' as [Hl Hk].
  destruct (_record_id instance) as [key|] eqn:Ek; [|discriminate].
  destruct (py_fspath (_json_filename instance)) as [loc|] eqn:El.
  - left. by exists loc, key.
  - by right.
Qed.

(** A location that is no path stops the write at the first [open]. *)
Lemma Field_set_not_a_path self_name instance value fs :
  guard instance = true → py_fspath (_json_filename instance) = None →
  Field.__set__ self_name instance value fs
  = (fs, Raise (not_a_path (_json_filename instance))).
Proof.
  intros G Hl. unfold Field.__set__. unfold guard in G. rewrite G.
  destruct (_record_id instance) as [key|];
    [|by rewrite andb_false_r in G].
  unfold bind, _load_records, try_except_FileNotFoundError, bind, py_open_r.
  rewrite Hl. by destruct (_json_filename instance).
Qed.

End Unbound.

(** ** Reading and writing through any instance that opens a file *)

Lemma _load_records_fspath filename loc :
  py_fspath filename = Some loc →
  _load_records filename = _load_records (VStr loc).
Proof. destruct filename; intros [= ->]; reflexivity. Qed.

Lemma _save_records_fspath filename loc :
  py_fspath filename = Some loc →
  _save_records filename = _save_records (VStr loc).
Proof. destruct filename; intros [= ->]; reflexivity. Qed.

Lemma _save_records_holds path (fs : fsys) d doc :
  holds_document fs path d →
  _save_records (VStr path) doc fs =
  if json_serialisable doc
  then (<[path := RegularFile true true (Text (json_image doc))]> fs, Ok tt)
  else (<[path := RegularFile true true Malformed]> fs, Raise TypeError).
Proof.
  intros Hd. unfold _save_records, bind, py_open_w, json_dump.
  cbn [py_fspath].
  destruct Hd as [[-> _] | ->]; destruct (json_serialisable doc);
    by rewrite alter_insert_eq.
Qed.

Section Opens.
Context `{PyBuiltins}.
Variables (instance : pyobject) (loc key : string).
Hypothesis Hopens : opens instance loc key.

Lemma Field_set_opens self_name value :
  Field.__set__ self_name instance value =
  (all_records <- _load_records (VStr loc) ;;
   record <- py_get all_records key (VDict []) ;;
   record <- py_setitem record self_name value ;;
   all_records <- py_setitem all_records key record ;;
   _save_records (VStr loc) all_records).
Proof.
  destruct Hopens as (G & Hl & Hk).
  unfold Field.__set__. unfold guard in G. rewrite G, Hk.
  by rewrite (_load_records_fspath _ _ Hl), (_save_records_fspath _ _ Hl).
Qed.

Lemma Field_get_opens self_name :
  Field.__get__ self_name instance =
  (all_records <- _load_records (VStr loc) ;;
   record <- py_get all_records key (VDict []) ;;
   py_get record self_name VNone).
Proof.
  destruct Hopens as (G & Hl & Hk).
  unfold Field.__get__. unfold guard in G. rewrite G, Hk.
  by rewrite (_load_records_fspath _ _ Hl).
Qed.

(** A write on a store that holds a document: it goes through when the
    updated document can be written, and stops in [json.dump], after the
    file was cut, when it cannot. *)
Lemma Field_set_holds self_name value (fs : fsys) d r :
  holds_document fs loc d → record_of d key = Some r →
  Field.__set__ self_name instance value fs =
  if json_serialisable (VDict (updated d key r self_name value))
  then (<[loc := RegularFile true true
               (Text (json_image (VDict (updated d key r self_name value))))]>
          fs, Ok tt)
  else (<[loc := RegularFile true true Malformed]> fs, Raise TypeError).
Proof.
  intros Hd Hr. rewrite Field_set_opens. unfold bind at 1.
  rewrite (_load_records_document _ _ _ Hd).
  unfold record_of in Hr. unfold bind, py_get, py_setitem, ret, raise.
  destruct (dict_get key d) as [x|] eqn:E; simpl.
  - destruct x; try discriminate. injection Hr as ->.
    by apply _save_records_holds with (d := d).
  - injection Hr as <-. by apply _save_records_holds with (d := d).
Qed.

(** The store holds a document with a record to write to, or it does not. *)
Lemma store_cases (fs : fsys) :
  (∃ d r, holds_document fs loc d ∧ record_of d key = Some r) ∨
  (∀ d r, holds_document fs loc d → record_of d key ≠ Some r).
Proof.
  destruct (fs !! loc) as [[mr mw [v|]| |]|] eqn:Hf.
  - destruct v as [| | | | |d| | | | |];
      try (right; intros d r [[Hn _] | Hs]; congruence).
    destruct mr, mw; try (right; intros d' r [[Hn _] | Hs]; congruence).
    destruct (record_of d key) as [r|] eqn:Hr.
    + left. exists d, r. split; [by right | done].
    + right. intros d' r [[Hn _] | Hs]; [congruence|].
      assert (d' = d) as -> by congruence. congruence.
  - right. intros d r [[Hn _] | Hs]; congruence.
  - right. intros d r [[Hn _] | Hs]; congruence.
  - right. intros d r [[Hn _] | Hs]; congruence.
  - left. exists [], []. split; [by left | done].
Qed.

(** Everywhere else the write raises before it opens the file for writing,
    and nothing changes. *)
Lemma Field_set_elsewhere self_name value (fs : fsys) :
  (∀ d r, holds_document fs loc d → record_of d key ≠ Some r) →
  ∃ e, Field.__set__ self_name instance value fs = (fs, Raise e).
Proof.
  intros Hno. rewrite Field_set_opens.
  unfold bind, _load_records, try_except_FileNotFoundError, bind, py_open_r,
    json_load, py_get, py_setitem, _save_records, bind, py_open_w,
    ret, raise.
  cbn [py_fspath].
  destruct (fs !! loc) as [[mr mw [v|]| |]|] eqn:Hf.
  - destruct mr; [|by eexists].
    destruct v as [| | | | |d| | | | |]; try (by eexists).
    destruct (dict_get key d) as [x|] eqn:E; simpl.
    + destruct x as [| | | | |r| | | | |]; try (by eexists).
      rewrite Hf. destruct mw; [|by eexists].
      destruct (Hno d r); [by right|].
      unfold record_of. by rewrite E.
    + rewrite Hf. destruct mw; [|by eexists].
      destruct (Hno d []); [by right|].
      unfold record_of. by rewrite E.
  - destruct mr; by eexists.
  - by eexists.
  - simpl. rewrite Hf. by eexists.
  - destruct (Hno [] []); [by left | done].
Qed.

(** On a file whose text is no JSON the write stops in [_load_records]. *)
Lemma Field_set_cut self_name value (fs : fsys) mr mw :
  fs !! loc = Some (RegularFile mr mw Malformed) →
  ∃ e, Field.__set__ self_name instance value fs = (fs, Raise e).
Proof.
  intros Hf. apply Field_set_elsewhere.
  intros d r [[Hn _] | Hs]; congruence.
Qed.

(** A read on a store whose file holds the JSON object [d]. *)
Lemma Field_get_text self_name (fs : fsys) w d r :
  fs !! loc = Some (RegularFile true w (Text (VDict d))) →
  record_of d key = Some r →
  Field.__get__ self_name instance fs =
  (fs, Ok (default VNone (dict_get self_name r))).
Proof.
  intros Hf Hr. rewrite Field_get_opens. unfold bind at 1.
  rewrite (_load_records_text _ _ _ _ Hf).
  unfold record_of in Hr. unfold bind, py_get, ret, raise.
  destruct (dict_get key d) as [x|] eqn:E; simpl.
  - destruct x; try discriminate. by injection Hr as ->.
  - by injection Hr as <-.
Qed.

End Opens.

Section BoundFailure.
Context `{PyBuiltins}.
Variables (instance : pyobject) (loc key : string).
Hypothesis Hbound : bound instance loc key.

(** On a file whose text is no JSON the write stops in [_load_records]. *)
Lemma Field_set_malformed self_name value (fs : fsys) r w :
  fs !! loc = Some (RegularFile r w Malformed) →
  ∃ e, Field.__set__ self_name instance value fs = (fs, Raise e).
Proof.
  intros Hf. rewrite (Field_set_bound _ _ _ Hbound).
  unfold bind, _load_records, try_except_FileNotFoundError, bind, py_open_r.
  cbn [py_fspath]. rewrite Hf. destruct r; eexists; reflexivity.
Qed.

End BoundFailure.

(** ** Round trip *)

(** A read that follows a write that returned normally gives the value
    written, as [json.load] gives it back. *)
Lemma Field_get_after_set `{PyBuiltins} instance loc key self_name value
  (fs fs' : fsys) :
  opens instance loc key →
  Field.__set__ self_name instance value fs = (fs', Ok tt) →
  Field.__get__ self_name instance fs' = (fs', Ok (json_image value)).
Proof.
  intros Ho Hset.
  destruct (store_cases loc key fs) as [(d & r & Hd & Hr) | Hno].
  - rewrite (Field_set_holds _ _ _ Ho self_name value fs d r Hd Hr) in Hset.
    destruct (json_serialisable _); [|discriminate].
    apply (f_equal fst) in Hset. cbn [fst] in Hset. subst fs'.
    rewrite json_image_updated.
    rewrite (Field_get_text _ _ _ Ho self_name _ true
               (updated (json_image_items d) key (json_image_items r)
                  self_name (json_image value))
               (dict_set self_name (json_image value) (json_image_items r))).
    + by rewrite dict_get_set_eq.
    + apply lookup_insert_eq.
    + unfold record_of, updated. by rewrite dict_get_set_eq.
  - destruct (Field_set_elsewhere _ _ _ Ho self_name value fs Hno) as [e He].
    rewrite He in Hset. discriminate.
Qed.

(** Writing a field again: a write that follows one that went through ends
    as it would have ended on the store as it was before. *)
Lemma Field_set_after_set `{PyBuiltins} instance loc key self_name first second
  (fs : fsys) d r :
  opens instance loc key →
  holds_document fs loc d → record_of d key = Some r →
  Field.__set__ self_name instance second
    (<[loc := RegularFile true true
         (Text (json_image (VDict (updated d key r self_name first))))]> fs)
  = Field.__set__ self_name instance second fs.
Proof.
  intros Ho Hd Hr. rewrite json_image_updated.
  rewrite (Field_set_holds _ _ _ Ho self_name second _
             (updated (json_image_items d) key (json_image_items r)
                self_name (json_image first))
             (dict_set self_name (json_image first) (json_image_items r)));
    [ | right; apply lookup_insert_eq
      | unfold record_of, updated; by rewrite dict_get_set_eq ].
  rewrite (Field_set_holds _ _ _ Ho self_name second fs d r Hd Hr).
  assert (Hsame : updated
                    (updated (json_image_items d) key (json_image_items r)
                       self_name (json_image first))
                    key
                    (dict_set self_name (json_image first) (json_image_items r))
                    self_name second
                  = updated (json_image_items d) key (json_image_items r)
                      self_name second)
    by (unfold updated; by rewrite !dict_set_twice).
  rewrite Hsame, json_serialisable_updated_image.
  rewrite !json_image_updated, !json_image_items_twice, !insert_insert_eq.
  done.
Qed.

(** C1, as the code has it.  For an instance bound to a location and a
    record key, a store that holds a document whose entry for the key, if
    any, is a record, and a value of JSON's own data model ([None], a
    boolean, an integer, a float that is a number, a string, or a list or
    a dictionary with string keys of such values): [Field.__set__] returns
    normally, and the [Field.__get__] that follows it on the same instance
    and field returns the value written.  A tuple is no such value: it is
    written, and read back as a list. *)
Theorem write_then_read `{PyBuiltins} instance loc key self_name value
  (fs : fsys) d r :
  bound instance loc key →
  holds_document fs loc d → json_ok (VDict d) = true →
  record_of d key = Some r →
  json_ok value = true →
  ∃ fs', Field.__set__ self_name instance value fs = (fs', Ok tt) ∧
         Field.__get__ self_name instance fs' = (fs', Ok value).
Proof.
  intros Hb Hd Hok Hr Hv.
  pose proof (json_ok_updated d key r self_name value Hv Hok Hr) as Hnew.
  pose proof (Field_set_document _ _ _ Hb self_name value fs d r Hd Hr Hnew)
    as Hset.
  eexists. split; [exact Hset|].
  pose proof (Field_get_after_set instance loc key self_name value fs _
                (bound_opens _ _ _ Hb) Hset) as Hget.
  by rewrite (proj2 (json_ok_image value Hv)) in Hget.
Qed.

(** ** Isolation *)


(** A read on a store that holds a document. *)
Lemma Field_get_holds `{PyBuiltins} instance loc key self_name (fs : fsys) d :
  bound instance loc key → holds_document fs loc d →
  Field.__get__ self_name instance fs = (fs, lookup_field d key self_name).
Proof.
  intros Hb Hd. rewrite (Field_get_bound _ _ _ Hb). unfold bind at 1.
  rewrite (_load_records_document _ _ _ Hd).
  unfold lookup_field, bind, py_get, ret, raise.
  destruct Hd as [[_ ->] | _]; [done|].
  destruct (dict_get key d) as [x|]; [|done]. by destruct x.
Qed.

(** Isolation as a reader sees it: after the write of C2, a read of any
    other field of the record, or of any field of another record of the
    same file, gives what it gave before. *)
Lemma write_isolation_observed `{PyBuiltins} instance loc key self_name value
  (fs : fsys) d r other other_key other_name :
  bound instance loc key →
  holds_document fs loc d → json_ok (VDict d) = true →
  record_of d key = Some r →
  json_ok value = true →
  bound other loc other_key →
  other_key ≠ key ∨ other_name ≠ self_name →
  (Field.__get__ other_name other
     (Field.__set__ self_name instance value fs).1).2
  = (Field.__get__ other_name other fs).2.
Proof.
  intros Hb Hd Hok Hr Hv Ho Hne.
  pose proof (json_ok_updated d key r self_name value Hv Hok Hr) as Hnew.
  rewrite (Field_set_document _ _ _ Hb self_name value fs d r Hd Hr Hnew).
  simpl.
  rewrite (Field_get_holds other loc other_key other_name _
             (updated d key r self_name value) Ho)
    by (right; apply lookup_insert_eq).
  rewrite (Field_get_holds other loc other_key other_name fs d Ho Hd).
  simpl. unfold lookup_field, updated.
  destruct (String.eqb_spec key other_key) as [<-|Hk].
  - destruct Hne as [Hne|Hne]; [done|].
    rewrite dict_get_set_eq, dict_get_set_ne by done.
    unfold record_of in Hr. destruct (dict_get key d) as [x|].
    + destruct x; try discriminate. by injection Hr as ->.
    + by injection Hr as <-.
  - by rewrite dict_get_set_ne.
Qed.

(** ** Reads leave the store alone *)

Lemma Field_get_pure `{PyBuiltins} self_name instance (fs : fsys) :
  (Field.__get__ self_name instance fs).1 = fs.
Proof.
  unfold Field.__get__. destruct (_ && _); [|done].
  destruct (_record_id instance) as [key|]; [|done].
  unfold bind at 1.
  destruct (_load_records (_json_filename instance) fs) as [fs1 res] eqn:El.
  apply _load_records_pure in El as ->.
  destruct res as [doc|e]; [|done].
  unfold bind, py_get, ret, raise.
  destruct doc; try done.
  by destruct (default (VDict []) (dict_get key kvs)).
Qed.

(** ** Idempotence *)

(** C8. Whatever the instance, the field, the value and the file system,
    the file system after two writes of the same value in a row is the file
    system after the first of them; and when the first write returns
    normally, so does the second. *)
Theorem write_twice `{PyBuiltins} instance self_name value (fs : fsys) :
  let once := Field.__set__ self_name instance value fs in
  let twice := Field.__set__ self_name instance value once.1 in
  twice.1 = once.1 ∧ (once.2 = Ok tt → twice.2 = Ok tt).
Proof.
  cbv zeta.
  destruct (guard_cases instance) as [G | [(loc & key & Ho) | [G Hl]]].
  - by rewrite !Field_set_unguarded.
  - destruct (store_cases loc key fs) as [(d & r & Hd & Hr) | Hno].
    + pose proof (Field_set_holds _ _ _ Ho self_name value fs d r Hd Hr) as E1.
      destruct (json_serialisable (VDict (updated d key r self_name value))).
      * rewrite E1. cbn [fst snd].
        rewrite (Field_set_after_set instance loc key self_name value value
                   fs d r Ho Hd Hr).
        by rewrite E1.
      * rewrite E1. cbn [fst snd]. split; [|done].
        destruct (Field_set_cut _ _ _ Ho self_name value
                    (<[loc := RegularFile true true Malformed]> fs) true true)
          as [e' ->]; [apply lookup_insert_eq | done].
    + destruct (Field_set_elsewhere _ _ _ Ho self_name value fs Hno) as [e E1].
      rewrite E1. cbn [fst snd]. by rewrite E1.
  - by rewrite !Field_set_not_a_path.
Qed.

(** ** Failed writes *)

(** C6, as the code has it, for an instance that passes the guard.  With a
    location that is nothing [open] takes, the write raises [TypeError] and
    changes nothing.  With a location that names a file: on a store that
    holds a document with a record to write to, the write returns normally
    and leaves the complete updated document when [json.dump] can write it,
    and otherwise raises [TypeError] with the file cut, so that what it
    holds is no longer a document; on every other store the write raises
    before it opens the file for writing, and changes nothing. *)
Theorem failed_write_effect `{PyBuiltins} instance self_name value (fs : fsys) :
  guard instance = true →
  let write := Field.__set__ self_name instance value fs in
  (py_fspath (_json_filename instance) = None →
   (∀ n, _json_filename instance ≠ VInt n) →
   (∀ b, _json_filename instance ≠ VBool b) →
   write = (fs, Raise TypeError)) ∧
  (∀ loc key,
     py_fspath (_json_filename instance) = Some loc →
     _record_id instance = Some key →
     (∀ d r,
        holds_document fs loc d → record_of d key = Some r →
        write =
        if json_serialisable (VDict (updated d key r self_name value))
        then (<[loc := RegularFile true true
                     (Text (json_image
                              (VDict (updated d key r self_name value))))]> fs,
              Ok tt)
        else (<[loc := RegularFile true true Malformed]> fs, Raise TypeError)) ∧
     ((∀ d r, holds_document fs loc d → record_of d key ≠ Some r) →
      ∃ e, write = (fs, Raise e))).
Proof.
  intros G write. unfold write. split.
  - intros Hl Hint Hbool. rewrite Field_set_not_a_path by done.
    destruct (_json_filename instance) as [|b|n| | | | | | | |];
      try done; [by destruct (Hbool b) | by destruct (Hint n)].
  - intros loc key Hl Hk.
    assert (Ho : opens instance loc key) by done.
    split.
    + intros d r Hd Hr. by apply Field_set_holds.
    + by apply Field_set_elsewhere.
Qed.

(** ** Missing files *)

(** C4. When the location names no file, [_load_records] returns the empty
    dictionary and leaves the file system alone, and [Field.__get__] on any
    instance that resolves to that location returns [None] for every field,
    without raising. *)
Theorem missing_file_reads_None `{PyBuiltins} loc (fs : fsys) :
  fs !! loc = None ∨ fs !! loc = Some NoParent →
  _load_records (VStr loc) fs = (fs, Ok (VDict [])) ∧
  ∀ instance self_name,
    _json_filename instance = VStr loc →
    Field.__get__ self_name instance fs = (fs, Ok VNone).
Proof.
  intros Hm. split; [by apply _load_records_missing|].
  intros instance self_name Hl. unfold Field.__get__. rewrite Hl.
  destruct (_ && _); [|done].
  destruct (_record_id instance) as [key|]; [|done].
  unfold bind at 1. by rewrite _load_records_missing.
Qed.

(** ** Absent fields *)

(** C5, as the code has it.  On an existing record, a read of a field that
    was never written returns [None] without raising, and a read of a field
    that holds [v] returns [v]; so the two reads differ exactly when [v] is
    not [None]: an absent field reads as a field set to null does. *)
Theorem absent_field_reads_None `{PyBuiltins} instance loc key self_name
  (fs : fsys) w d r :
  bound instance loc key →
  fs !! loc = Some (RegularFile true w (Text (VDict d))) →
  dict_get key d = Some (VDict r) →
  dict_get self_name r = None →
  Field.__get__ self_name instance fs = (fs, Ok VNone) ∧
  ∀ other_name v,
    dict_get other_name r = Some v →
    Field.__get__ other_name instance fs = (fs, Ok v) ∧
    (Field.__get__ other_name instance fs = Field.__get__ self_name instance fs
     ↔ v = VNone).
Proof.
  intros Hb Hf Hk Hn.
  assert (Hr : record_of d key = Some r) by (unfold record_of; by rewrite Hk).
  assert (Hget : ∀ name, Field.__get__ name instance fs =
                         (fs, Ok (default VNone (dict_get name r)))).
  { intros name. by apply Field_get_document with (loc := loc) (key := key)
      (w := w) (d := d). }
  split; [by rewrite Hget, Hn|].
  intros other_name v Hv. rewrite !Hget, Hn, Hv. simpl.
  split; [done|]. split; [by intros [= ->] | by intros ->].
Qed.

(** ** Unset identity *)

(** The part of C3 that the code keeps: a write is a silent no-op when the
    resolved location is falsy, or the resolved key is [None] or empty. *)
Lemma write_without_target `{PyBuiltins} instance self_name value (fs : fsys) :
  py_bool (_json_filename instance) = false ∨
  _record_id instance = None ∨ _record_id instance = Some "" →
  Field.__set__ self_name instance value fs = (fs, Ok tt).
Proof.
  intros Hu. apply Field_set_unguarded. unfold guard.
  destruct Hu as [-> | [-> | ->]]; [done | |]; apply andb_false_r.
Qed.

(** An identity that was never set resolves to the key ["None"],
    which passes the guard. *)
Lemma unset_identity_key `{PyBuiltins} filename :
  _record_id (Person.__init__ filename None) = Some "None".
Proof. reflexivity. Qed.

(** C3 at [Person("people.json")], on an empty directory: the write
    [.name = "James Schue"] creates the file, with a record under the key
    ["None"]. *)
Theorem unset_identity_write `{PyBuiltins} :
  Field.__set__ "name" Sample.anonymous (VStr "James Schue") ∅ =
  ({[ "people.json" :=
        RegularFile true true
          (Text (VDict [("None", VDict [("name", VStr "James Schue")])])) ]},
   Ok tt).
Proof. reflexivity. Qed.

(** ** Resolution at access time *)

Lemma IdentityDescriptor_get_set_eq a instance v :
  IdentityDescriptor.__get__ a (IdentityDescriptor.__set__ a instance v) = v.
Proof.
  unfold IdentityDescriptor.__get__, IdentityDescriptor.__set__. simpl.
  by rewrite lookup_insert_eq.
Qed.

Lemma IdentityDescriptor_get_set_ne a c instance v :
  c ≠ a →
  IdentityDescriptor.__get__ a (IdentityDescriptor.__set__ c instance v) =
  IdentityDescriptor.__get__ a instance.
Proof.
  intros Hne. unfold IdentityDescriptor.__get__, IdentityDescriptor.__set__.
  simpl. by rewrite lookup_insert_ne.
Qed.

Lemma _json_filename_first instance a :
  first_tagged isinstance_JsonFilename (__class__ instance) = Some a →
  _json_filename instance = IdentityDescriptor.__get__ a instance.
Proof.
  intros Ha. unfold _json_filename. by rewrite _json_filename_loop_first, Ha.
Qed.

Lemma _record_id_first `{PyBuiltins} instance b :
  first_tagged isinstance_RecordId (__class__ instance) = Some b →
  _record_id instance = Some (py_str (IdentityDescriptor.__get__ b instance)).
Proof.
  intros Hb. unfold _record_id. by rewrite _record_id_loop_first, Hb.
Qed.

Lemma first_tagged_app tag pre a v post :
  Forall (λ item : string * class_attr, tag item.2 = false) pre →
  tag v = true →
  first_tagged tag (pre ++ (a, v) :: post)%list = Some a.
Proof.
  intros Hpre Hv. induction Hpre as [|[a0 v0] pre H0 _ IH]; simpl.
  - by rewrite Hv.
  - simpl in H0. by rewrite H0.
Qed.

(** C7. Assigning to the location attribute, or to the identity attribute,
    of an instance redirects the reads and writes that follow: they are the
    accessor's read and write at the value just assigned, whatever the
    attribute held before. *)
Theorem resolution_is_dynamic `{PyBuiltins} instance a b v self_name value :
  first_tagged isinstance_JsonFilename (__class__ instance) = Some a →
  first_tagged isinstance_RecordId (__class__ instance) = Some b →
  a ≠ b →
  let moved := IdentityDescriptor.__set__ a instance v in
  let renamed := IdentityDescriptor.__set__ b instance v in
  (_json_filename moved = v ∧
   Field.__get__ self_name moved =
     Accessor.read v (_record_id instance) self_name ∧
   Field.__set__ self_name moved value =
     Accessor.write v (_record_id instance) self_name value) ∧
  (_record_id renamed = Some (py_str v) ∧
   Field.__get__ self_name renamed =
     Accessor.read (_json_filename instance) (Some (py_str v)) self_name ∧
   Field.__set__ self_name renamed value =
     Accessor.write (_json_filename instance) (Some (py_str v)) self_name value).
Proof.
  intros Ha Hb Hne moved renamed.
  assert (Hl : _json_filename moved = v).
  { rewrite (_json_filename_first moved a Ha).
    apply IdentityDescriptor_get_set_eq. }
  assert (Hk : _record_id moved = _record_id instance).
  { rewrite (_record_id_first moved b Hb), (_record_id_first instance b Hb).
    unfold moved. by rewrite IdentityDescriptor_get_set_ne. }
  assert (Hk' : _record_id renamed = Some (py_str v)).
  { rewrite (_record_id_first renamed b Hb). unfold renamed.
    by rewrite IdentityDescriptor_get_set_eq. }
  assert (Hl' : _json_filename renamed = _json_filename instance).
  { rewrite (_json_filename_first renamed a Ha),
      (_json_filename_first instance a Ha).
    unfold renamed. rewrite IdentityDescriptor_get_set_ne; [done|].
    by intros ->. }
  split; split_and!; try done.
  - by rewrite Field_get_refines, Hl, Hk.
  - by rewrite Field_set_refines, Hl, Hk.
  - by rewrite Field_get_refines, Hl', Hk'.
  - by rewrite Field_set_refines, Hl', Hk'.
Qed.

(** C9. The record key of every read and write is [str] of the current
    value of the identity attribute, and the location is the current value
    of the location attribute as it is; so a [Person] whose identity is the
    integer 42 and one whose identity is the string ["42"] read and write
    the same record. *)
Theorem record_key_is_str `{PyBuiltins} instance a b :
  first_tagged isinstance_JsonFilename (__class__ instance) = Some a →
  first_tagged isinstance_RecordId (__class__ instance) = Some b →
  let location := IdentityDescriptor.__get__ a instance in
  let identity := IdentityDescriptor.__get__ b instance in
  _json_filename instance = location ∧
  _record_id instance = Some (py_str identity) ∧
  (∀ self_name,
     Field.__get__ self_name instance =
     Accessor.read location (Some (py_str identity)) self_name) ∧
  (∀ self_name value,
     Field.__set__ self_name instance value =
     Accessor.write location (Some (py_str identity)) self_name value) ∧
  (∀ filename self_name,
     Field.__get__ self_name (Person.__init__ filename (Some (VInt 42))) =
     Field.__get__ self_name (Person.__init__ filename (Some (VStr "42")))) ∧
  (∀ filename self_name value,
     Field.__set__ self_name (Person.__init__ filename (Some (VInt 42))) value =
     Field.__set__ self_name (Person.__init__ filename (Some (VStr "42"))) value).
Proof.
  intros Ha Hb location identity.
  pose proof (_json_filename_first instance a Ha) as Hl.
  pose proof (_record_id_first instance b Hb) as Hk.
  split_and!; try done.
  - intros. by rewrite Field_get_refines, Hl, Hk.
  - intros. by rewrite Field_set_refines, Hl, Hk.
Qed.

(** C10. When the class tags several attributes as the location, or
    several as the identity, the first of each kind in declaration order is
    the one resolved, whatever comes after it in the class; every read and
    write goes to the values of those two attributes, and assigning to any
    other attribute changes no read and no write. *)
Theorem first_declared_wins `{PyBuiltins} instance (a b : string)
  (before_a after_a before_b after_b : list (string * class_attr)) :
  __class__ instance = (before_a ++ (a, AJsonFilename) :: after_a)%list →
  Forall (λ item, isinstance_JsonFilename item.2 = false) before_a →
  __class__ instance = (before_b ++ (b, ARecordId) :: after_b)%list →
  Forall (λ item, isinstance_RecordId item.2 = false) before_b →
  let location := IdentityDescriptor.__get__ a instance in
  let identity := IdentityDescriptor.__get__ b instance in
  _json_filename instance = location ∧
  _record_id instance = Some (py_str identity) ∧
  (∀ self_name value,
     Field.__get__ self_name instance =
       Accessor.read location (Some (py_str identity)) self_name ∧
     Field.__set__ self_name instance value =
       Accessor.write location (Some (py_str identity)) self_name value) ∧
  (∀ c v self_name value,
     c ≠ a → c ≠ b →
     let other := IdentityDescriptor.__set__ c instance v in
     Field.__get__ self_name other = Field.__get__ self_name instance ∧
     Field.__set__ self_name other value =
       Field.__set__ self_name instance value).
Proof.
  intros Ea Ha Eb Hb location identity.
  assert (Fa : first_tagged isinstance_JsonFilename (__class__ instance)
               = Some a) by (rewrite Ea; by apply first_tagged_app).
  assert (Fb : first_tagged isinstance_RecordId (__class__ instance)
               = Some b) by (rewrite Eb; by apply first_tagged_app).
  pose proof (_json_filename_first instance a Fa) as Hl.
  pose proof (_record_id_first instance b Fb) as Hk.
  split_and!; try done.
  - intros. by rewrite Field_get_refines, Field_set_refines, Hl, Hk.
  - intros c v self_name value Hca Hcb other.
    rewrite !Field_get_refines, !Field_set_refines.
    rewrite (_json_filename_first other a Fa), (_record_id_first other b Fb).
    rewrite Hl, Hk. unfold other.
    by rewrite !IdentityDescriptor_get_set_ne.
Qed.

(** ** The script *)

(** Started where [people.json] does not exist yet, the script looks up
    ["James Schue"]: the writes for person-2 have left person-1 alone. *)
Lemma main_output `{PyBuiltins} : (main ∅).2 = Ok (VStr "James Schue").
Proof. reflexivity. Qed.

(** ** The properties at the sample data *)

(** C1 as stated fails on a tuple, a value [json.dump] writes: on
    [people.json] holding the record of [person-1], the write of the pair
    [(1, 2)] to the field [pair] returns normally, and the read that
    follows returns the list [[1, 2]]. *)
Lemma tuple_reads_back_as_list :
  let written : fsys :=
    {[ "people.json" :=
         RegularFile true true
           (Text (VDict [("person-1",
                          VDict [("name", VStr "James Schue");
                                 ("email", VNone);
                                 ("pair", VList [VInt 1; VInt 2])])])) ]} in
  Field.__set__ (H := Sample.builtins) "pair" Sample.person_1
    (VTuple [VInt 1; VInt 2]) Sample.store = (written, Ok tt) ∧
  Field.__get__ (H := Sample.builtins) "pair" Sample.person_1 written
    = (written, Ok (VList [VInt 1; VInt 2])) ∧
  VList [VInt 1; VInt 2] ≠ VTuple [VInt 1; VInt 2].
Proof. split_and!; [reflexivity | reflexivity | discriminate]. Qed.

(** C5 as stated fails on [people.json] holding
    [{"person-1": {"name": "James Schue", "email": null}}]: the record has
    no [age] and an [email] set to null, and the read of [age] returns
    [None], the very result of the read of [email]. *)
Lemma absent_reads_as_null :
  dict_get "person-1" Sample.one_person
    = Some (VDict [("name", VStr "James Schue"); ("email", VNone)]) ∧
  Field.__get__ (H := Sample.builtins) "age" Sample.person_1 Sample.store
    = (Sample.store, Ok VNone) ∧
  Field.__get__ (H := Sample.builtins) "email" Sample.person_1 Sample.store
    = (Sample.store, Ok VNone).
Proof. split_and!; reflexivity. Qed.

(** C6 as stated fails on the same file when [person-1.age] is given a
    value JSON cannot represent, such as a set: the write raises
    [TypeError], and the file that held the document is left cut. *)
Lemma failed_write_cuts_file :
  Sample.store !! "people.json"
    = Some (RegularFile true true (Text (VDict Sample.one_person))) ∧
  Field.__set__ (H := Sample.builtins) "age" Sample.person_1
    (VOpaque true "{1, 2}") Sample.store
    = ({[ "people.json" := RegularFile true true Malformed ]}, Raise TypeError).
Proof. split; reflexivity. Qed.

Lemma write_then_read_witness :
  ∃ fs',
    Field.__set__ (H := Sample.builtins) "age" Sample.person_1 (VInt 42)
      Sample.store = (fs', Ok tt) ∧
    Field.__get__ (H := Sample.builtins) "age" Sample.person_1 fs'
      = (fs', Ok (VInt 42)).
Proof.
  apply (write_then_read (H := Sample.builtins) Sample.person_1
           "people.json" "person-1" "age" (VInt 42) Sample.store
           Sample.one_person
           [("name", VStr "James Schue"); ("email", VNone)]).
  - unfold bound. split_and!; [reflexivity | discriminate
                              | reflexivity | discriminate].
  - right. reflexivity.
  - reflexivity.
  - reflexivity.
  - reflexivity.
Defined.


Lemma write_twice_witness :
  let once :=
    Field.__set__ (H := Sample.builtins) "age" Sample.person_1 (VInt 42)
      Sample.store in
  let twice :=
    Field.__set__ (H := Sample.builtins) "age" Sample.person_1 (VInt 42)
      once.1 in
  twice.1 = once.1 ∧ twice.2 = Ok tt.
Proof.
  intros once twice.
  destruct (write_twice (H := Sample.builtins) Sample.person_1 "age" (VInt 42)
              Sample.store) as [Hfs Hres].
  split; [exact Hfs | apply Hres; reflexivity].
Defined.

Lemma failed_write_effect_witness :
  Field.__set__ (H := Sample.builtins) "age" Sample.person_1
    (VOpaque true "{1, 2}") Sample.store
  = (<["people.json" := RegularFile true true Malformed]> Sample.store,
     Raise TypeError).
Proof.
  destruct (failed_write_effect (H := Sample.builtins) Sample.person_1 "age"
              (VOpaque true "{1, 2}") Sample.store eq_refl) as [_ Hfile].
  destruct (Hfile "people.json" "person-1" eq_refl eq_refl) as [Hdoc _].
  apply (Hdoc Sample.one_person
           [("name", VStr "James Schue"); ("email", VNone)]).
  - right. reflexivity.
  - reflexivity.
Defined.

Lemma missing_file_reads_None_witness :
  _load_records (VStr "people.json") ∅ = (∅, Ok (VDict [])) ∧
  ∀ instance self_name,
    _json_filename instance = VStr "people.json" →
    Field.__get__ (H := Sample.builtins) self_name instance ∅ = (∅, Ok VNone).
Proof.
  apply (missing_file_reads_None (H := Sample.builtins) "people.json" ∅).
  left. reflexivity.
Defined.

Lemma absent_field_reads_None_witness :
  Field.__get__ (H := Sample.builtins) "age" Sample.person_1 Sample.store
    = (Sample.store, Ok VNone) ∧
  ∀ other_name v,
    dict_get other_name [("name", VStr "James Schue"); ("email", VNone)]
      = Some v →
    Field.__get__ (H := Sample.builtins) other_name Sample.person_1 Sample.store
      = (Sample.store, Ok v) ∧
    (Field.__get__ (H := Sample.builtins) other_name Sample.person_1
       Sample.store
     = Field.__get__ (H := Sample.builtins) "age" Sample.person_1 Sample.store
     ↔ v = VNone).
Proof.
  apply (absent_field_reads_None (H := Sample.builtins) Sample.person_1
           "people.json" "person-1" "age" Sample.store true
           Sample.one_person).
  - unfold bound. split_and!; [reflexivity | discriminate
                              | reflexivity | discriminate].
  - reflexivity.
  - reflexivity.
  - reflexivity.
Defined.

Lemma resolution_is_dynamic_witness :
  let moved :=
    IdentityDescriptor.__set__ "filename" Sample.person_1 (VStr "staff.json") in
  let renamed :=
    IdentityDescriptor.__set__ "person_id" Sample.person_1 (VStr "staff.json") in
  (_json_filename moved = VStr "staff.json" ∧
   Field.__get__ (H := Sample.builtins) "name" moved =
     Accessor.read (VStr "staff.json")
       (_record_id (H := Sample.builtins) Sample.person_1) "name" ∧
   Field.__set__ (H := Sample.builtins) "name" moved (VStr "Ann") =
     Accessor.write (VStr "staff.json")
       (_record_id (H := Sample.builtins) Sample.person_1) "name" (VStr "Ann")) ∧
  (_record_id (H := Sample.builtins) renamed
     = Some (py_str (H := Sample.builtins) (VStr "staff.json")) ∧
   Field.__get__ (H := Sample.builtins) "name" renamed =
     Accessor.read (_json_filename Sample.person_1)
       (Some (py_str (H := Sample.builtins) (VStr "staff.json"))) "name" ∧
   Field.__set__ (H := Sample.builtins) "name" renamed (VStr "Ann") =
     Accessor.write (_json_filename Sample.person_1)
       (Some (py_str (H := Sample.builtins) (VStr "staff.json")))
       "name" (VStr "Ann")).
Proof.
  apply (resolution_is_dynamic (H := Sample.builtins) Sample.person_1
           "filename" "person_id" (VStr "staff.json") "name" (VStr "Ann")).
  - reflexivity.
  - reflexivity.
  - discriminate.
Defined.

Lemma record_key_is_str_witness :
  _json_filename Sample.person_1 = VStr "people.json" ∧
  _record_id (H := Sample.builtins) Sample.person_1 = Some "person-1".
Proof.
  destruct (record_key_is_str (H := Sample.builtins) Sample.person_1
              "filename" "person_id") as (Hl & Hk & _).
  - reflexivity.
  - reflexivity.
  - split; [exact Hl | exact Hk].
Defined.

Lemma first_declared_wins_witness :
  _json_filename Sample.mirrored = VStr "a.json" ∧
  _record_id (H := Sample.builtins) Sample.mirrored = Some "k" ∧
  Field.__get__ (H := Sample.builtins) "name"
    (IdentityDescriptor.__set__ "backup" Sample.mirrored (VStr "c.json"))
  = Field.__get__ (H := Sample.builtins) "name" Sample.mirrored.
Proof.
  destruct (first_declared_wins (H := Sample.builtins) Sample.mirrored
              "primary" "key"
              [] [("key", ARecordId); ("backup", AJsonFilename);
                  ("alias", ARecordId); ("name", AField)]
              [("primary", AJsonFilename)]
              [("backup", AJsonFilename); ("alias", ARecordId);
               ("name", AField)])
    as (Hl & Hk & _ & Hother).
  - reflexivity.
  - constructor.
  - reflexivity.
  - repeat constructor.
  - split_and!; [exact Hl | exact Hk |].
    apply (Hother "backup" (VStr "c.json") "name" VNone); discriminate.
Defined.

(** * Further properties of the persistence engine *)

(** ** Lookups in an updated document *)

Lemma record_of_updated d key r field value other_key r' :
  record_of d other_key = Some r' →
  record_of (updated d key r field value) other_key =
  Some (if key =? other_key then dict_set field value r else r').
Proof.
  intros Hr. unfold record_of, updated.
  destruct (String.eqb_spec key other_key) as [<-|Hne].
  - by rewrite dict_get_set_eq.
  - by rewrite dict_get_set_ne.
Qed.

Lemma lookup_field_updated d key r field value other_key other_field :
  record_of d key = Some r →
  lookup_field (updated d key r field value) other_key other_field =
  if (key =? other_key) && (field =? other_field)
  then Ok value
  else lookup_field d other_key other_field.
Proof.
  intros Hr. unfold lookup_field, updated.
  destruct (String.eqb_spec key other_key) as [<-|Hne]; simpl.
  - rewrite dict_get_set_eq.
    assert (Hd : ∀ f, match dict_get key d with
                      | None => Ok VNone
                      | Some (VDict r0) => Ok (default VNone (dict_get f r0))
                      | Some _ => Raise AttributeError
                      end = Ok (default VNone (dict_get f r))).
    { intros f. unfold record_of in Hr. destruct (dict_get key d) as [x|].
      - destruct x; try discriminate. by injection Hr as ->.
      - by injection Hr as <-. }
    rewrite Hd.
    destruct (String.eqb_spec field other_field) as [<-|Hf].
    + by rewrite dict_get_set_eq.
    + by rewrite dict_get_set_ne.
  - by rewrite dict_get_set_ne.
Qed.

Lemma json_serialisable_dict_set_false d k v :
  json_serialisable v = false →
  json_serialisable (VDict (dict_set k v d)) = false.
Proof.
  intros Hv. induction d as [|[k0 v0] d IH]; simpl.
  - by rewrite Hv.
  - destruct (k0 =? k); simpl.
    + by rewrite Hv.
    + simpl in IH. rewrite IH. apply andb_false_r.
Qed.

Lemma json_serialisable_updated_false d key r field value :
  json_serialisable value = false →
  json_serialisable (VDict (updated d key r field value)) = false.
Proof.
  intros Hv. unfold updated. apply json_serialisable_dict_set_false.
  by apply json_serialisable_dict_set_false.
Qed.

Lemma keys_dict_set {A : Type} (d : list (string * A)) k v :
  keys (dict_set k v d) =
  if has_key k d then keys d else (keys d ++ [k])%list.
Proof.
  unfold keys, has_key. induction d as [|[k0 v0] d IH]; csimpl; [done|].
  destruct (k0 =? k) eqn:E; csimpl; [done|].
  rewrite IH. by destruct (dict_get k d).
Qed.

(** ** Writes that stop in [json.dump] *)

Lemma Field_set_unserialisable `{PyBuiltins} instance loc key self_name value
  (fs : fsys) d r :
  bound instance loc key →
  holds_document fs loc d → record_of d key = Some r →
  json_serialisable (VDict (updated d key r self_name value)) = false →
  Field.__set__ self_name instance value fs =
  (<[loc := RegularFile true true Malformed]> fs, Raise TypeError).
Proof.
  intros Hb Hd Hr Hok.
  rewrite (Field_set_holds _ _ _ (bound_opens _ _ _ Hb) self_name value fs d r
             Hd Hr).
  by rewrite Hok.
Qed.

Lemma Field_get_malformed `{PyBuiltins} instance loc key self_name
  (fs : fsys) w :
  bound instance loc key →
  fs !! loc = Some (RegularFile true w Malformed) →
  Field.__get__ self_name instance fs = (fs, Raise JSONDecodeError).
Proof.
  intros Hb Hf. rewrite (Field_get_bound _ _ _ Hb).
  unfold bind, _load_records, try_except_FileNotFoundError, bind, py_open_r.
  cbn [py_fspath]. by rewrite Hf.
Qed.

Lemma Field_set_malformed_text `{PyBuiltins} instance loc key self_name value
  (fs : fsys) w :
  bound instance loc key →
  fs !! loc = Some (RegularFile true w Malformed) →
  Field.__set__ self_name instance value fs = (fs, Raise JSONDecodeError).
Proof.
  intros Hb Hf. rewrite (Field_set_bound _ _ _ Hb).
  unfold bind, _load_records, try_except_FileNotFoundError, bind, py_open_r.
  cbn [py_fspath]. by rewrite Hf.
Qed.

(** Two instances bound to the same file and key are read and written
    alike. *)
Lemma Field_same_target `{PyBuiltins} instance other loc key self_name :
  bound instance loc key → bound other loc key →
  Field.__get__ self_name instance = Field.__get__ self_name other ∧
  ∀ value, Field.__set__ self_name instance value
           = Field.__set__ self_name other value.
Proof.
  intros Hi Ho. split.
  - by rewrite (Field_get_bound _ _ _ Hi), (Field_get_bound _ _ _ Ho).
  - intros value.
    by rewrite (Field_set_bound _ _ _ Hi), (Field_set_bound _ _ _ Ho).
Qed.

(** ** What reads and writes leave alone *)

(** X1. A field read changes nothing in the file system, whatever the
    instance and the state of the files, and whether it returns or raises;
    neither does [_load_records]. *)
Theorem reads_leave_store `{PyBuiltins} self_name instance filename (fs : fsys) :
  (Field.__get__ self_name instance fs).1 = fs ∧
  (_load_records filename fs).1 = fs.
Proof.
  split; [apply Field_get_pure|].
  destruct (_load_records filename fs) as [fs' res] eqn:E.
  by apply _load_records_pure in E.
Qed.

(** ** The first write and the order of the file *)

(** X4. When the file does not exist, a write of a serialisable value
    through a bound instance creates it, with the one record and the one
    field written as its whole content. *)
Theorem first_write_creates_file `{PyBuiltins} instance loc key self_name value
  (fs : fsys) :
  bound instance loc key →
  fs !! loc = None →
  json_ok value = true →
  Field.__set__ self_name instance value fs =
  (<[loc := RegularFile true true
             (Text (VDict [(key, VDict [(self_name, value)])]))]> fs, Ok tt).
Proof.
  intros Hb Hf Hv.
  apply (Field_set_document _ _ _ Hb self_name value fs [] []).
  - by left.
  - done.
  - simpl. by rewrite Hv.
Qed.

(** X5. A write keeps the order of the file: the record keys of the
    document stay as they are when the record exists, and the key is added
    after all the others when it is new; likewise for the field names
    inside the record. *)
Theorem write_keeps_order `{PyBuiltins} instance loc key self_name value
  (fs : fsys) d r :
  bound instance loc key →
  holds_document fs loc d → json_ok (VDict d) = true →
  record_of d key = Some r →
  json_ok value = true →
  ∃ d' r',
    holds_document (Field.__set__ self_name instance value fs).1 loc d' ∧
    record_of d' key = Some r' ∧
    keys d' = (if has_key key d then keys d else keys d ++ [key])%list ∧
    keys r' = (if has_key self_name r then keys r else keys r ++ [self_name])%list.
Proof.
  intros Hb Hd Hok Hr Hv.
  pose proof (json_ok_updated d key r self_name value Hv Hok Hr) as Hnew.
  rewrite (Field_set_document _ _ _ Hb self_name value fs d r Hd Hr Hnew).
  exists (updated d key r self_name value), (dict_set self_name value r).
  split_and!.
  - right. apply lookup_insert_eq.
  - unfold record_of, updated. by rewrite dict_get_set_eq.
  - apply keys_dict_set.
  - apply keys_dict_set.
Qed.

(** ** How writes compose *)

(** X6. The last write wins: after a write of a field that returned
    normally, a second write of the same field through the same instance
    ends as it would have ended without the first, and leaves the same file
    system; nothing is kept of the value written first. *)
Theorem last_write_wins `{PyBuiltins} instance self_name first second
  (fs fs1 : fsys) :
  Field.__set__ self_name instance first fs = (fs1, Ok tt) →
  Field.__set__ self_name instance second fs1 =
  Field.__set__ self_name instance second fs.
Proof.
  intros E1.
  destruct (guard_cases instance) as [G | [(loc & key & Ho) | [G Hl]]].
  - rewrite Field_set_unguarded in E1 by done. by simplify_eq.
  - destruct (store_cases loc key fs) as [(d & r & Hd & Hr) | Hno].
    + rewrite (Field_set_holds _ _ _ Ho self_name first fs d r Hd Hr) in E1.
      destruct (json_serialisable (VDict (updated d key r self_name first)));
        [|discriminate].
      apply (f_equal fst) in E1. cbn [fst] in E1. subst fs1.
      by apply Field_set_after_set.
    + destruct (Field_set_elsewhere _ _ _ Ho self_name first fs Hno) as [e He].
      rewrite He in E1. discriminate.
  - rewrite Field_set_not_a_path in E1 by done. discriminate.
Qed.

(** X7. An instance keeps nothing of its own: a value written through one
    instance is what a read returns through any other instance bound to the
    same file and record key, in the form [json.load] gives it back (as it
    was written, when it is a value of JSON's data model). *)
Theorem instances_share_record `{PyBuiltins} writer reader loc key self_name
  value (fs fs' : fsys) :
  bound writer loc key → bound reader loc key →
  Field.__set__ self_name writer value fs = (fs', Ok tt) →
  Field.__get__ self_name reader fs' = (fs', Ok (json_image value)) ∧
  (json_ok value = true →
   Field.__get__ self_name reader fs' = (fs', Ok value)).
Proof.
  intros Hw Hr Hset.
  destruct (Field_same_target reader writer loc key self_name Hr Hw) as [-> _].
  pose proof (Field_get_after_set writer loc key self_name value fs fs'
                (bound_opens _ _ _ Hw) Hset) as Hget.
  split; [done|]. intros Hv.
  by rewrite (proj2 (json_ok_image value Hv)) in Hget.
Qed.

(** One successful write, with what the next one needs. *)
Lemma write_step `{PyBuiltins} instance loc key self_name value (fs : fsys) d r :
  bound instance loc key →
  holds_document fs loc d → json_ok (VDict d) = true →
  record_of d key = Some r →
  json_ok value = true →
  let d' := updated d key r self_name value in
  let fs' := <[loc := RegularFile true true (Text (VDict d'))]> fs in
  Field.__set__ self_name instance value fs = (fs', Ok tt) ∧
  holds_document fs' loc d' ∧ json_ok (VDict d') = true.
Proof.
  intros Hb Hd Hok Hr Hv d' fs'.
  pose proof (json_ok_updated d key r self_name value Hv Hok Hr) as Hnew.
  split_and!; [by apply Field_set_document | | done].
  right. apply lookup_insert_eq.
Qed.

(** X8. Two writes to different fields, or to different records, of the
    same file can be made in either order: both orders succeed, and every
    read of that file gives the same result after the one as after the
    other. *)
Theorem writes_commute `{PyBuiltins} first second reader loc key1 key2 key
  field1 field2 field value1 value2 (fs : fsys) d r1 r2 :
  bound first loc key1 → bound second loc key2 → bound reader loc key →
  key1 ≠ key2 ∨ field1 ≠ field2 →
  holds_document fs loc d → json_ok (VDict d) = true →
  record_of d key1 = Some r1 → record_of d key2 = Some r2 →
  json_ok value1 = true → json_ok value2 = true →
  let one := Field.__set__ field1 first value1 fs in
  let one_two := Field.__set__ field2 second value2 one.1 in
  let two := Field.__set__ field2 second value2 fs in
  let two_one := Field.__set__ field1 first value1 two.1 in
  one_two.2 = Ok tt ∧ two_one.2 = Ok tt ∧
  (Field.__get__ field reader one_two.1).2
  = (Field.__get__ field reader two_one.1).2.
Proof.
  intros H1 H2 Hrd Hne Hd Hok Hr1 Hr2 Hv1 Hv2 one one_two two two_one.
  destruct (write_step first loc key1 field1 value1 fs d r1 H1 Hd Hok Hr1 Hv1)
    as (E1 & Hd1 & Hok1).
  destruct (write_step second loc key2 field2 value2 fs d r2 H2 Hd Hok Hr2 Hv2)
    as (E2 & Hd2 & Hok2).
  pose proof (record_of_updated d key1 r1 field1 value1 key2 r2 Hr2) as Hr12.
  pose proof (record_of_updated d key2 r2 field2 value2 key1 r1 Hr1) as Hr21.
  destruct (write_step second loc key2 field2 value2 _ _ _ H2 Hd1 Hok1 Hr12 Hv2)
    as (E12 & Hd12 & _).
  destruct (write_step first loc key1 field1 value1 _ _ _ H1 Hd2 Hok2 Hr21 Hv1)
    as (E21 & Hd21 & _).
  unfold one_two, two_one, one, two. rewrite E1, E2. simpl.
  rewrite E12, E21. simpl. split_and!; [done | done |].
  rewrite (Field_get_holds reader loc key field _ _ Hrd Hd12).
  rewrite (Field_get_holds reader loc key field _ _ Hrd Hd21).
  simpl.
  rewrite (lookup_field_updated _ key2 _ field2 value2 key field Hr12).
  rewrite (lookup_field_updated _ key1 _ field1 value1 key field Hr21).
  rewrite (lookup_field_updated d key1 r1 field1 value1 key field Hr1).
  rewrite (lookup_field_updated d key2 r2 field2 value2 key field Hr2).
  destruct (String.eqb_spec key2 key) as [->|Hk2];
    destruct (String.eqb_spec field2 field) as [->|Hf2];
    destruct (String.eqb_spec key1 key) as [->|Hk1];
    destruct (String.eqb_spec field1 field) as [->|Hf1];
    simpl; try done.
  by destruct Hne.
Qed.

(** ** After a write that failed in [json.dump] *)

(** X9. A write of a value [json.dump] has no encoding for, on a store
    that holds a document, raises [TypeError]; from then on every read and every write
    through any instance bound to that file raises [JSONDecodeError] and
    changes nothing, whatever the record, the field and the value. *)
Theorem failed_dump_blocks_store `{PyBuiltins} instance loc key self_name value
  (fs : fsys) d r :
  bound instance loc key →
  holds_document fs loc d → record_of d key = Some r →
  json_serialisable value = false →
  let failed := Field.__set__ self_name instance value fs in
  failed.2 = Raise TypeError ∧
  ∀ other other_key other_name,
    bound other loc other_key →
    Field.__get__ other_name other failed.1
      = (failed.1, Raise JSONDecodeError) ∧
    ∀ v, Field.__set__ other_name other v failed.1
         = (failed.1, Raise JSONDecodeError).
Proof.
  intros Hb Hd Hr Hv failed. unfold failed.
  rewrite (Field_set_unserialisable _ _ _ self_name value fs d r Hb Hd Hr)
    by (by apply json_serialisable_updated_false).
  simpl. split; [done|]. intros other other_key other_name Ho. split.
  - apply Field_get_malformed with (loc := loc) (key := other_key) (w := true);
      [done | apply lookup_insert_eq].
  - intros v.
    apply Field_set_malformed_text with (loc := loc) (key := other_key)
      (w := true); [done | apply lookup_insert_eq].
Qed.

(** ** Errors *)

(** X10. What a read through a bound instance raises, the file system
    staying as it is: [IsADirectoryError] when the location is a directory,
    [PermissionError] when the file cannot be read, [JSONDecodeError] when
    its text is no JSON, and [AttributeError] when the text is JSON but no
    object, or when the entry under the record key is no object. *)
Theorem read_errors `{PyBuiltins} instance loc key self_name (fs : fsys) :
  bound instance loc key →
  let read := Field.__get__ self_name instance fs in
  (fs !! loc = Some Directory → read = (fs, Raise IsADirectoryError)) ∧
  (∀ w c, fs !! loc = Some (RegularFile false w c) →
     read = (fs, Raise PermissionError)) ∧
  (∀ w, fs !! loc = Some (RegularFile true w Malformed) →
     read = (fs, Raise JSONDecodeError)) ∧
  (∀ w v, fs !! loc = Some (RegularFile true w (Text v)) →
     (∀ d, v ≠ VDict d) → read = (fs, Raise AttributeError)) ∧
  (∀ w d, fs !! loc = Some (RegularFile true w (Text (VDict d))) →
     record_of d key = None → read = (fs, Raise AttributeError)).
Proof.
  intros Hb read. unfold read. rewrite (Field_get_bound _ _ _ Hb).
  unfold bind, _load_records, try_except_FileNotFoundError, bind, py_open_r,
    json_load, py_get, ret, raise.
  cbn [py_fspath]. split_and!.
  - by intros ->.
  - by intros w c ->.
  - by intros w ->.
  - intros w v -> Hv. destruct v; try done. by destruct (Hv kvs).
  - intros w d -> Hr. unfold record_of in Hr.
    destruct (dict_get key d) as [x|]; [|done]. by destruct x.
Qed.

(** X11. What a write through a bound instance raises before it opens the
    file for writing, the file system staying as it is: the errors of a
    read, except that an entry under the record key that is no object
    raises [TypeError]; and [PermissionError] when the file holds a document
    and can be read but not written. *)
Theorem write_errors `{PyBuiltins} instance loc key self_name value (fs : fsys) :
  bound instance loc key →
  let write := Field.__set__ self_name instance value fs in
  (fs !! loc = Some Directory → write = (fs, Raise IsADirectoryError)) ∧
  (∀ w c, fs !! loc = Some (RegularFile false w c) →
     write = (fs, Raise PermissionError)) ∧
  (∀ w, fs !! loc = Some (RegularFile true w Malformed) →
     write = (fs, Raise JSONDecodeError)) ∧
  (∀ w v, fs !! loc = Some (RegularFile true w (Text v)) →
     (∀ d, v ≠ VDict d) → write = (fs, Raise AttributeError)) ∧
  (∀ w d, fs !! loc = Some (RegularFile true w (Text (VDict d))) →
     record_of d key = None → write = (fs, Raise TypeError)) ∧
  (∀ d r, fs !! loc = Some (RegularFile true false (Text (VDict d))) →
     record_of d key = Some r → write = (fs, Raise PermissionError)).
Proof.
  intros Hb write. unfold write. rewrite (Field_set_bound _ _ _ Hb).
  unfold bind, _load_records, try_except_FileNotFoundError, bind, py_open_r,
    json_load, py_get, py_setitem, _save_records, bind, py_open_w, ret, raise.
  cbn [py_fspath]. split_and!.
  - by intros ->.
  - by intros w c ->.
  - by intros w ->.
  - intros w v -> Hv. destruct v; try done. by destruct (Hv kvs).
  - intros w d -> Hr. unfold record_of in Hr.
    destruct (dict_get key d) as [x|]; [|done]. by destruct x.
  - intros d r Hf Hr. rewrite Hf. unfold record_of in Hr.
    destruct (dict_get key d) as [x|]; simpl.
    + destruct x; try done. by rewrite Hf.
    + by rewrite Hf.
Qed.

(** X12. Under a directory that does not exist a read returns [None],
    [_load_records] taking the missing file for an empty document, while a
    write raises [FileNotFoundError], which [_save_records] does not catch,
    and creates nothing. *)
Theorem missing_directory `{PyBuiltins} instance loc key self_name value
  (fs : fsys) :
  bound instance loc key →
  fs !! loc = Some NoParent →
  Field.__get__ self_name instance fs = (fs, Ok VNone) ∧
  Field.__set__ self_name instance value fs = (fs, Raise FileNotFoundError).
Proof.
  intros Hb Hf. split.
  - rewrite (Field_get_bound _ _ _ Hb). unfold bind at 1.
    rewrite _load_records_missing by (by right). done.
  - rewrite (Field_set_bound _ _ _ Hb). unfold bind at 1.
    rewrite _load_records_missing by (by right).
    unfold bind, py_get, py_setitem, _save_records, bind, py_open_w, ret.
    cbn [py_fspath]. simpl. by rewrite Hf.
Qed.

(** ** Instances without a target *)

(** X13. Reads return [None] and writes do nothing, without a look at the
    file system, when the class has no [JsonFilename] attribute or no
    [RecordId] attribute, when the value of the first [JsonFilename]
    attribute is falsy, or when [str] of the value of the first [RecordId]
    attribute is empty. *)
Theorem no_target_is_inert `{PyBuiltins} instance self_name value (fs : fsys) :
  first_tagged isinstance_JsonFilename (__class__ instance) = None ∨
  first_tagged isinstance_RecordId (__class__ instance) = None ∨
  (∃ a, first_tagged isinstance_JsonFilename (__class__ instance) = Some a ∧
        py_bool (IdentityDescriptor.__get__ a instance) = false) ∨
  (∃ b, first_tagged isinstance_RecordId (__class__ instance) = Some b ∧
        py_str (IdentityDescriptor.__get__ b instance) = "") →
  Field.__get__ self_name instance fs = (fs, Ok VNone) ∧
  Field.__set__ self_name instance value fs = (fs, Ok tt).
Proof.
  intros Hcase.
  assert (G : guard instance = false).
  { unfold guard, _json_filename, _record_id.
    rewrite _json_filename_loop_first, _record_id_loop_first.
    destruct Hcase as [-> | [-> | [(a & -> & ->) | (b & -> & ->)]]];
      simpl; try done; apply andb_false_r. }
  split; [by apply Field_get_unguarded | by apply Field_set_unguarded].
Qed.

(** ** The pass-through descriptor *)

(** [IdentityDescriptor]: an attribute that was never assigned reads
    as [None]; after an assignment it reads as the value assigned, the
    attributes of other names read as before, and the class of the instance
    is the same. *)
Lemma identity_descriptor_passthrough self_name instance value :
  (__dict__ instance !! self_name = None →
   IdentityDescriptor.__get__ self_name instance = VNone) ∧
  let assigned := IdentityDescriptor.__set__ self_name instance value in
  IdentityDescriptor.__get__ self_name assigned = value ∧
  (∀ other_name, other_name ≠ self_name →
     IdentityDescriptor.__get__ other_name assigned
     = IdentityDescriptor.__get__ other_name instance) ∧
  __class__ assigned = __class__ instance.
Proof.
  split.
  - unfold IdentityDescriptor.__get__. by intros ->.
  - split_and!.
    + apply IdentityDescriptor_get_set_eq.
    + intros other_name Hne. apply IdentityDescriptor_get_set_ne. by intros ->.
    + done.
Qed.

(** X14. [Person(filename, person_id)] resolves to the file name as it
    was given and to [str] of the identity, which is ["None"] when the
    identity is left out; its field reads and writes are the accessor's at
    that location and key.  What is assigned to it later under another name
    changes neither. *)
Theorem person_resolution `{PyBuiltins} filename person_id :
  let self := Person.__init__ filename person_id in
  let key := py_str (default VNone person_id) in
  _json_filename self = filename ∧
  _record_id self = Some key ∧
  (∀ self_name value,
     Field.__get__ self_name self = Accessor.read filename (Some key) self_name ∧
     Field.__set__ self_name self value
       = Accessor.write filename (Some key) self_name value) ∧
  (∀ other_name v,
     other_name ≠ "filename" → other_name ≠ "person_id" →
     let self' := IdentityDescriptor.__set__ other_name self v in
     _json_filename self' = filename ∧ _record_id self' = Some key).
Proof.
  intros self key.
  assert (Hl : _json_filename self = filename) by done.
  assert (Hk : _record_id self = Some key) by done.
  split_and!; [done | done | |].
  - intros self_name value.
    by rewrite Field_get_refines, Field_set_refines, Hl, Hk.
  - intros other_name v Hf Hp self'. split.
    + rewrite (_json_filename_first self' "filename") by done.
      unfold self'. by rewrite IdentityDescriptor_get_set_ne.
    + rewrite (_record_id_first self' "person_id") by done.
      unfold self'. by rewrite IdentityDescriptor_get_set_ne.
Qed.

(** ** The script on any store *)

Lemma Person_bound `{PyBuiltins} loc key :
  loc ≠ "" → key ≠ "" →
  bound (Person.__init__ (VStr loc) (Some (VStr key))) loc key.
Proof. intros Hl Hk. unfold bound. by split_and!. Qed.

(** X15. Run where [../datafiles/people.json] is missing, or holds any
    serialisable document in which the entries for [person-1] and
    [person-2], if there are any, are objects, the script returns normally
    and looks up ["James Schue"]; it leaves a document in which the six
    fields it wrote hold the values written and every other field of every
    record is as it was. *)
Theorem main_on_any_store `{PyBuiltins} (fs : fsys) d r1 r2 :
  holds_document fs "../datafiles/people.json" d →
  json_ok (VDict d) = true →
  record_of d "person-1" = Some r1 →
  record_of d "person-2" = Some r2 →
  ∃ d',
    main fs =
      (<["../datafiles/people.json" := RegularFile true true (Text (VDict d'))]> fs,
       Ok (VStr "James Schue")) ∧
    lookup_field d' "person-1" "name" = Ok (VStr "James Schue") ∧
    lookup_field d' "person-1" "email" = Ok (VStr "jschue@aol.com") ∧
    lookup_field d' "person-1" "age" = Ok (VInt 42) ∧
    lookup_field d' "person-2" "name" = Ok (VStr "Patricia Kaike") ∧
    lookup_field d' "person-2" "email" = Ok (VStr "fastbaker91@gmail.com") ∧
    lookup_field d' "person-2" "age" = Ok (VInt 36) ∧
    ∀ key field,
      (key ≠ "person-1" ∧ key ≠ "person-2") ∨
      (field ≠ "name" ∧ field ≠ "email" ∧ field ≠ "age") →
      lookup_field d' key field = lookup_field d key field.
Proof.
  intros Hd Hok Hr1 Hr2.
  set (loc := "../datafiles/people.json") in *.
  assert (B1 : bound (Person.__init__ (VStr loc) (Some (VStr "person-1")))
                 loc "person-1") by (by apply Person_bound).
  assert (B2 : bound (Person.__init__ (VStr loc) (Some (VStr "person-2")))
                 loc "person-2") by (by apply Person_bound).
  set (v1 := VStr "James Schue"). set (v2 := VStr "jschue@aol.com").
  set (v3 := VInt 42). set (v4 := VStr "Patricia Kaike").
  set (v5 := VStr "fastbaker91@gmail.com"). set (v6 := VInt 36).
  set (p1 := "person-1") in *. set (p2 := "person-2") in *.
  set (ra := dict_set "name" v1 r1).
  set (rb := dict_set "email" v2 ra).
  set (rc := dict_set "name" v4 r2).
  set (rd := dict_set "email" v5 rc).
  destruct (write_step _ loc p1 "name" v1 fs d r1 B1 Hd Hok Hr1 eq_refl)
    as (E1 & Hd1 & Hok1).
  pose proof (record_of_updated d p1 r1 "name" v1 p1 r1 Hr1) as Ha1.
  pose proof (record_of_updated d p1 r1 "name" v1 p2 r2 Hr2) as Hb1.
  simpl in Ha1, Hb1. fold ra in Ha1.
  destruct (write_step _ loc p1 "email" v2 _ _ ra B1 Hd1 Hok1 Ha1 eq_refl)
    as (E2 & Hd2 & Hok2).
  pose proof (record_of_updated _ p1 ra "email" v2 p1 ra Ha1) as Ha2.
  pose proof (record_of_updated _ p1 ra "email" v2 p2 r2 Hb1) as Hb2.
  simpl in Ha2, Hb2. fold rb in Ha2.
  destruct (write_step _ loc p1 "age" v3 _ _ rb B1 Hd2 Hok2 Ha2 eq_refl)
    as (E3 & Hd3 & Hok3).
  pose proof (record_of_updated _ p1 rb "age" v3 p2 r2 Hb2) as Hb3.
  simpl in Hb3.
  destruct (write_step _ loc p2 "name" v4 _ _ r2 B2 Hd3 Hok3 Hb3 eq_refl)
    as (E4 & Hd4 & Hok4).
  pose proof (record_of_updated _ p2 r2 "name" v4 p2 r2 Hb3) as Hb4.
  simpl in Hb4. fold rc in Hb4.
  destruct (write_step _ loc p2 "email" v5 _ _ rc B2 Hd4 Hok4 Hb4 eq_refl)
    as (E5 & Hd5 & Hok5).
  pose proof (record_of_updated _ p2 rc "email" v5 p2 rc Hb4) as Hb5.
  simpl in Hb5. fold rd in Hb5.
  destruct (write_step _ loc p2 "age" v6 _ _ rd B2 Hd5 Hok5 Hb5 eq_refl)
    as (E6 & Hd6 & Hok6).
  assert (L : ∀ key field,
    lookup_field
      (updated (updated (updated (updated (updated (updated d
         p1 r1 "name" v1) p1 ra "email" v2) p1 rb "age" v3)
         p2 r2 "name" v4) p2 rc "email" v5) p2 rd "age" v6) key field =
    if (p2 =? key) && ("age" =? field) then Ok v6 else
    if (p2 =? key) && ("email" =? field) then Ok v5 else
    if (p2 =? key) && ("name" =? field) then Ok v4 else
    if (p1 =? key) && ("age" =? field) then Ok v3 else
    if (p1 =? key) && ("email" =? field) then Ok v2 else
    if (p1 =? key) && ("name" =? field) then Ok v1 else
    lookup_field d key field).
  { intros key field.
    rewrite (lookup_field_updated _ p2 rd "age" v6 key field Hb5),
      (lookup_field_updated _ p2 rc "email" v5 key field Hb4),
      (lookup_field_updated _ p2 r2 "name" v4 key field Hb3),
      (lookup_field_updated _ p1 rb "age" v3 key field Ha2),
      (lookup_field_updated _ p1 ra "email" v2 key field Ha1),
      (lookup_field_updated _ p1 r1 "name" v1 key field Hr1).
    done. }
  eexists. split_and!.
  - unfold main. fold loc p1 p2 v1 v2 v3 v4 v5 v6.
    unfold bind at 1. rewrite E1. unfold bind at 1. rewrite E2.
    unfold bind at 1. rewrite E3. unfold bind at 1. rewrite E4.
    unfold bind at 1. rewrite E5. unfold bind at 1. rewrite E6.
    rewrite (Field_get_holds _ loc p1 "name" _ _ B1 Hd6).
    rewrite !insert_insert_eq, L. reflexivity.
  - rewrite L. reflexivity.
  - rewrite L. reflexivity.
  - rewrite L. reflexivity.
  - rewrite L. reflexivity.
  - rewrite L. reflexivity.
  - rewrite L. reflexivity.
  - intros key field Hother. rewrite L.
    destruct (String.eqb_spec p1 key) as [K1|K1];
      destruct (String.eqb_spec p2 key) as [K2|K2];
      destruct (String.eqb_spec "name" field) as [F1|F1];
      destruct (String.eqb_spec "email" field) as [F2|F2];
      destruct (String.eqb_spec "age" field) as [F3|F3];
      simpl; try done;
      destruct Hother as [[N1 N2] | (N1 & N2 & N3)]; congruence.
Qed.

(** * example_1_logging.py *)

(** X16. All the [LogAccess] attributes of an instance share the one slot
    [_value]: after an assignment through one attribute and then one
    through another, a read through the first returns the value assigned
    through the second, and through any attribute at all a read returns the
    value assigned last.  Each of the three accesses prints its line, in
    order, after what was printed before. *)
Theorem log_access_one_slot (one other read : string)
  (instance : gmap string pyval) (v1 v2 : pyval) (out : list string) :
  Logging.io_bind (Logging.LogAccess.__set__ one instance v1) (fun instance =>
  Logging.io_bind (Logging.LogAccess.__set__ other instance v2) (fun instance =>
  Logging.LogAccess.__get__ read instance)) out
  = ((out ++ [ ("I'm writing to attribute " ++ one)%string;
               ("I'm writing to attribute " ++ other)%string;
               ("I'm reading from a attribute " ++ read)%string ])%list,
     Ok v2).
Proof.
  unfold Logging.io_bind, Logging.LogAccess.__set__, Logging.LogAccess.__get__,
    Logging.io_bind, Logging.print, Logging.io_ret. simpl.
  rewrite lookup_insert_eq. by rewrite <- !app_assoc.
Qed.

(** X17. A read through a [LogAccess] attribute of an instance on which
    nothing was assigned yet raises [AttributeError], after it has printed
    its line. *)
Theorem log_access_read_unset (self_name : string)
  (instance : gmap string pyval) (out : list string) :
  instance !! "_value" = None →
  Logging.LogAccess.__get__ self_name instance out
  = ((out ++ [("I'm reading from a attribute " ++ self_name)%string])%list,
     Raise AttributeError).
Proof.
  intros Hv. unfold Logging.LogAccess.__get__, Logging.io_bind, Logging.print.
  by rewrite Hv.
Qed.

(** The script prints the three lines of its accesses and then the e-mail
    address, not the name it assigned first. *)
Lemma logging_main_output `{PyBuiltins} :
  Logging.main [] =
  ([ "I'm writing to attribute name";
     "I'm writing to attribute email";
     "I'm reading from a attribute name";
     "jim.nasium@aol.com" ], Ok tt).
Proof. reflexivity. Qed.

Lemma log_access_read_unset_witness :
  Logging.LogAccess.__get__ "name" ∅ []
  = (["I'm reading from a attribute name"], Raise AttributeError).
Proof.
  apply (log_access_read_unset "name" ∅ []). reflexivity.
Defined.

(** * example_2_validation.py *)

Section Phone.
Import Stdlib.Strings.Ascii.
Import Validation.

Lemma at_end_spec s :
  at_end s = true ↔ s = "" ∨ s = String "010"%char "".
Proof.
  split.
  - destruct s as [|c [|c' s]]; simpl; try done; [by left|].
    intros ->%Ascii.eqb_eq. by right.
  - by intros [-> | ->].
Qed.

(** What [match_atoms] accepts: as many characters as there are atoms,
    each matched by its atom, and the rest. *)
Lemma match_atoms_spec p s rest :
  match_atoms p s = Some rest ↔
  ∃ cs, Forall2 (λ a c, atom_matches a c = true) p cs ∧
        s = (string_of_list_ascii cs ++ rest)%string.
Proof.
  revert s. induction p as [|a p IH]; intros s; simpl.
  - split.
    + intros [= ->]. exists []. by split.
    + intros (cs & Hcs & ->). by inversion Hcs.
  - destruct s as [|c s].
    + split; [done|]. intros (cs & Hcs & Hs). inversion Hcs; subst.
      discriminate.
    + destruct (atom_matches a c) eqn:Ha.
      * rewrite IH. split.
        -- intros (cs & Hcs & ->). exists (c :: cs). split; [|done].
           by constructor.
        -- intros (cs & Hcs & Hs). inversion Hcs; subst.
           simpl in Hs. injection Hs as -> ->. by eexists.
      * split; [done|]. intros (cs & Hcs & Hs). inversion Hcs; subst.
        simpl in Hs. injection Hs as -> ->. congruence.
Qed.

(** X18. The values [PhoneNumber] accepts are exactly the strings
    [(ddd) ddd-dddd], each [d] one of the digits 0 to 9, and the same strings
    followed by one newline, which [$] lets through. *)
Theorem phone_format (s : string) :
  re_match pattern (VStr s) = Ok true ↔
  ∃ area exchange line : list ascii,
    length area = 3 ∧ length exchange = 3 ∧ length line = 4 ∧
    Forall (λ c, is_digit c = true) (area ++ exchange ++ line) ∧
    (s = phone_text area exchange line ∨
     s = (phone_text area exchange line ++ String "010"%char "")%string).
Proof.
  unfold re_match. split.
  - destruct (match_atoms pattern s) as [rest|] eqn:Hm; [|done].
    intros [= Hend]. apply at_end_spec in Hend.
    apply match_atoms_spec in Hm as (cs & Hcs & ->).
    unfold pattern in Hcs.
    repeat match goal with
           | H : Forall2 _ (_ :: _) _ |- _ => inversion H; clear H; subst
           | H : Forall2 _ [] _ |- _ => inversion H; clear H; subst
           end.
    cbn [atom_matches] in *.
    repeat match goal with
           | H : Ascii.eqb _ _ = true |- _ => apply Ascii.eqb_eq in H; subst
           end.
    simpl.
    match goal with
    | |- context [String "(" (String ?a1 (String ?a2 (String ?a3
           (String ")" (String " " (String ?b1 (String ?b2 (String ?b3
           (String "-" (String ?c1 (String ?c2 (String ?c3 (String ?c4 _)
           ))))))))))))] =>
        exists [a1; a2; a3], [b1; b2; b3], [c1; c2; c3; c4]
    end.
    split_and!; try done.
    + repeat constructor; done.
    + destruct Hend as [-> | ->]; [by left | by right].
  - intros (area & exchange & line & Ha & He & Hl & Hd & Hs).
    destruct area as [|a1 [|a2 [|a3 [|]]]]; try discriminate.
    destruct exchange as [|b1 [|b2 [|b3 [|]]]]; try discriminate.
    destruct line as [|c1 [|c2 [|c3 [|c4 [|]]]]]; try discriminate.
    simpl in Hd.
    repeat match goal with
           | H : Forall _ (_ :: _) |- _ => inversion H; clear H; subst
           end.
    destruct Hs as [-> | ->]; unfold phone_text, pattern; simpl;
      repeat match goal with
             | H : is_digit _ = true |- _ => rewrite H; clear H
             end; done.
Qed.

(** X19. An assignment of a value that matches the pattern returns
    normally; the attribute then reads as that very value, and the
    [PhoneNumber] attributes of other names read as before. *)
Theorem phone_accepted (self_name : string) (instance : gmap string pyval)
  (value : pyval) :
  re_match pattern value = Ok true →
  let assigned := (PhoneNumber.__set__ self_name instance value).1 in
  (PhoneNumber.__set__ self_name instance value).2 = Ok tt ∧
  PhoneNumber.__get__ self_name assigned = Ok value ∧
  ∀ other_name, other_name ≠ self_name →
    PhoneNumber.__get__ other_name assigned
    = PhoneNumber.__get__ other_name instance.
Proof.
  intros Hm. unfold PhoneNumber.__set__, PhoneNumber.__get__. rewrite Hm.
  simpl. split_and!; [done | by rewrite lookup_insert_eq |].
  intros other_name Hne. rewrite lookup_insert_ne; [done|].
  intros [= Heq]. by destruct Hne.
Qed.

(** X20. An assignment of a value that does not match leaves the instance
    as it was and raises: [AttributeError] when the value is a string,
    [TypeError], out of [re.match], when it is not. *)
Theorem phone_rejected (self_name : string) (instance : gmap string pyval)
  (value : pyval) :
  re_match pattern value ≠ Ok true →
  PhoneNumber.__set__ self_name instance value =
  (instance,
   Raise match value with VStr _ => AttributeError | _ => TypeError end).
Proof.
  intros Hm. unfold PhoneNumber.__set__, re_match in *.
  destruct value as [| | |s| | | | | | |]; try done.
  destruct (match_atoms pattern s) as [rest|]; [|done].
  destruct (at_end rest); [by destruct Hm | done].
Qed.

(** X21. If what an instance holds for a [PhoneNumber] attribute, when it
    holds anything, matches the pattern, this is still so after any
    assignment through the descriptor, accepted or not; so a read returns a
    value that matches, or raises [AttributeError]. *)
Theorem phone_invariant (self_name : string) (instance : gmap string pyval)
  (value : pyval) :
  (∀ v, instance !! ("_" ++ self_name) = Some v →
        re_match pattern v = Ok true) →
  let after := (PhoneNumber.__set__ self_name instance value).1 in
  (∀ v, after !! ("_" ++ self_name) = Some v → re_match pattern v = Ok true) ∧
  (PhoneNumber.__get__ self_name after = Raise AttributeError ∨
   ∃ v, PhoneNumber.__get__ self_name after = Ok v ∧
        re_match pattern v = Ok true).
Proof.
  intros Hinv after.
  assert (Hafter : ∀ v, after !! ("_" ++ self_name) = Some v →
                        re_match pattern v = Ok true).
  { unfold after, PhoneNumber.__set__.
    destruct (re_match pattern value) as [[]|e] eqn:Hm; simpl; try done.
    intros v. rewrite lookup_insert_eq. by intros [= <-]. }
  split; [done|]. unfold PhoneNumber.__get__.
  destruct (after !! ("_" ++ self_name)) as [v|] eqn:Hv; [right | by left].
  exists v. split; [done | by apply Hafter].
Qed.

End Phone.

(** The script assigns the person's phone and stops at the company's,
    which is rejected. *)
Lemma validation_main_outcome :
  Validation.main =
  ({[ "name" := VStr "Patricia Kaike"; "_phone" := VStr "(800) 555-1212" ]},
   ∅, Raise AttributeError).
Proof. reflexivity. Qed.

(** * The further properties at the sample data *)

Lemma person_1_bound :
  bound (H := Sample.builtins) Sample.person_1 "people.json" "person-1".
Proof.
  unfold bound.
  split_and!; [reflexivity | discriminate | reflexivity | discriminate].
Defined.

Lemma person_2_bound :
  bound (H := Sample.builtins) Sample.person_2 "people.json" "person-2".
Proof.
  unfold bound.
  split_and!; [reflexivity | discriminate | reflexivity | discriminate].
Defined.

Lemma first_write_creates_file_witness :
  Field.__set__ (H := Sample.builtins) "name" Sample.person_1
    (VStr "James Schue") ∅ =
  (<["people.json" := RegularFile true true
       (Text (VDict [("person-1", VDict [("name", VStr "James Schue")])]))]> ∅,
   Ok tt).
Proof.
  apply (first_write_creates_file (H := Sample.builtins) Sample.person_1
           "people.json" "person-1" "name" (VStr "James Schue") ∅).
  - exact person_1_bound.
  - reflexivity.
  - reflexivity.
Defined.

Lemma write_keeps_order_witness :
  ∃ d' r',
    holds_document
      (Field.__set__ (H := Sample.builtins) "name" Sample.person_2
         (VStr "Patricia Kaike") Sample.store).1 "people.json" d' ∧
    record_of d' "person-2" = Some r' ∧
    keys d' = ["person-1"; "person-2"] ∧
    keys r' = ["name"].
Proof.
  apply (write_keeps_order (H := Sample.builtins) Sample.person_2
           "people.json" "person-2" "name" (VStr "Patricia Kaike")
           Sample.store Sample.one_person []).
  - exact person_2_bound.
  - right. reflexivity.
  - reflexivity.
  - reflexivity.
  - reflexivity.
Defined.

Lemma last_write_wins_witness :
  Field.__set__ (H := Sample.builtins) "age" Sample.person_1 (VInt 43)
    (Field.__set__ (H := Sample.builtins) "age" Sample.person_1 (VInt 42)
       Sample.store).1
  = Field.__set__ (H := Sample.builtins) "age" Sample.person_1 (VInt 43)
      Sample.store.
Proof.
  apply (last_write_wins (H := Sample.builtins) Sample.person_1 "age"
           (VInt 42) (VInt 43) Sample.store).
  reflexivity.
Defined.

Lemma instances_share_record_witness :
  let reader :=
    IdentityDescriptor.__set__ "nickname" Sample.person_1 (VStr "Jim") in
  let fs' :=
    (Field.__set__ (H := Sample.builtins) "age" Sample.person_1 (VInt 42)
       Sample.store).1 in
  Field.__get__ (H := Sample.builtins) "age" reader fs' = (fs', Ok (VInt 42)).
Proof.
  intros reader fs'.
  destruct (instances_share_record (H := Sample.builtins) Sample.person_1
              reader "people.json" "person-1" "age" (VInt 42) Sample.store fs')
    as [_ Hget].
  - exact person_1_bound.
  - unfold bound.
    split_and!; [reflexivity | discriminate | reflexivity | discriminate].
  - reflexivity.
  - apply Hget. reflexivity.
Defined.

Lemma writes_commute_witness :
  let one :=
    Field.__set__ (H := Sample.builtins) "age" Sample.person_1 (VInt 42)
      Sample.store in
  let one_two :=
    Field.__set__ (H := Sample.builtins) "name" Sample.person_2
      (VStr "Patricia Kaike") one.1 in
  let two :=
    Field.__set__ (H := Sample.builtins) "name" Sample.person_2
      (VStr "Patricia Kaike") Sample.store in
  let two_one :=
    Field.__set__ (H := Sample.builtins) "age" Sample.person_1 (VInt 42)
      two.1 in
  one_two.2 = Ok tt ∧ two_one.2 = Ok tt ∧
  (Field.__get__ (H := Sample.builtins) "age" Sample.person_1 one_two.1).2
  = (Field.__get__ (H := Sample.builtins) "age" Sample.person_1 two_one.1).2.
Proof.
  apply (writes_commute (H := Sample.builtins) Sample.person_1 Sample.person_2
           Sample.person_1 "people.json" "person-1" "person-2" "person-1"
           "age" "name" "age" (VInt 42) (VStr "Patricia Kaike")
           Sample.store Sample.one_person
           [("name", VStr "James Schue"); ("email", VNone)] []).
  - exact person_1_bound.
  - exact person_2_bound.
  - exact person_1_bound.
  - left. discriminate.
  - right. reflexivity.
  - reflexivity.
  - reflexivity.
  - reflexivity.
  - reflexivity.
  - reflexivity.
Defined.

Lemma failed_dump_blocks_store_witness :
  let failed :=
    Field.__set__ (H := Sample.builtins) "age" Sample.person_1
      (VOpaque true "{1, 2}") Sample.store in
  failed.2 = Raise TypeError ∧
  ∀ other other_key other_name,
    bound (H := Sample.builtins) other "people.json" other_key →
    Field.__get__ (H := Sample.builtins) other_name other failed.1
      = (failed.1, Raise JSONDecodeError) ∧
    ∀ v, Field.__set__ (H := Sample.builtins) other_name other v failed.1
         = (failed.1, Raise JSONDecodeError).
Proof.
  apply (failed_dump_blocks_store (H := Sample.builtins) Sample.person_1
           "people.json" "person-1" "age" (VOpaque true "{1, 2}")
           Sample.store Sample.one_person
           [("name", VStr "James Schue"); ("email", VNone)]).
  - exact person_1_bound.
  - right. reflexivity.
  - reflexivity.
  - reflexivity.
Defined.

Lemma read_errors_witness :
  Field.__get__ (H := Sample.builtins) "name" Sample.person_1
    {[ "people.json" := RegularFile true true (Text (VList [])) ]}
  = ({[ "people.json" := RegularFile true true (Text (VList [])) ]},
     Raise AttributeError).
Proof.
  destruct (read_errors (H := Sample.builtins) Sample.person_1 "people.json"
              "person-1" "name"
              {[ "people.json" := RegularFile true true (Text (VList [])) ]}
              person_1_bound) as (_ & _ & _ & Hlist & _).
  apply (Hlist true (VList [])); [reflexivity | discriminate].
Defined.

Lemma write_errors_witness :
  Field.__set__ (H := Sample.builtins) "name" Sample.person_1 (VStr "Ann")
    {[ "people.json" :=
         RegularFile true true (Text (VDict [("person-1", VInt 5)])) ]}
  = ({[ "people.json" :=
          RegularFile true true (Text (VDict [("person-1", VInt 5)])) ]},
     Raise TypeError).
Proof.
  destruct (write_errors (H := Sample.builtins) Sample.person_1 "people.json"
              "person-1" "name" (VStr "Ann")
              {[ "people.json" :=
                   RegularFile true true (Text (VDict [("person-1", VInt 5)])) ]}
              person_1_bound) as (_ & _ & _ & _ & Hrec & _).
  apply (Hrec true [("person-1", VInt 5)]); reflexivity.
Defined.

Lemma missing_directory_witness :
  Field.__get__ (H := Sample.builtins) "name" Sample.person_1
    {[ "people.json" := NoParent ]}
  = ({[ "people.json" := NoParent ]}, Ok VNone) ∧
  Field.__set__ (H := Sample.builtins) "name" Sample.person_1 (VStr "Ann")
    {[ "people.json" := NoParent ]}
  = ({[ "people.json" := NoParent ]}, Raise FileNotFoundError).
Proof.
  apply (missing_directory (H := Sample.builtins) Sample.person_1
           "people.json" "person-1" "name" (VStr "Ann")
           {[ "people.json" := NoParent ]}).
  - exact person_1_bound.
  - reflexivity.
Defined.

Lemma no_target_is_inert_witness :
  let nowhere := Person.__init__ VNone (Some (VStr "person-1")) in
  Field.__get__ (H := Sample.builtins) "name" nowhere Sample.store
    = (Sample.store, Ok VNone) ∧
  Field.__set__ (H := Sample.builtins) "name" nowhere (VStr "Ann") Sample.store
    = (Sample.store, Ok tt).
Proof.
  apply (no_target_is_inert (H := Sample.builtins)
           (Person.__init__ VNone (Some (VStr "person-1"))) "name" (VStr "Ann")
           Sample.store).
  right. right. left. exists "filename". split; reflexivity.
Defined.

Lemma main_on_any_store_witness :
  ∃ d',
    main (H := Sample.builtins) ∅ =
      (<["../datafiles/people.json" :=
           RegularFile true true (Text (VDict d'))]> ∅,
       Ok (VStr "James Schue")) ∧
    lookup_field d' "person-2" "age" = Ok (VInt 36).
Proof.
  destruct (main_on_any_store (H := Sample.builtins) ∅ [] [] [])
    as (d' & Hmain & _ & _ & _ & _ & _ & Hage & _).
  - left. split; reflexivity.
  - reflexivity.
  - reflexivity.
  - reflexivity.
  - exists d'. split; [exact Hmain | exact Hage].
Defined.

Lemma phone_accepted_witness :
  let assigned :=
    (Validation.PhoneNumber.__set__ "phone" ∅ (VStr "(800) 555-1212")).1 in
  (Validation.PhoneNumber.__set__ "phone" ∅ (VStr "(800) 555-1212")).2 = Ok tt ∧
  Validation.PhoneNumber.__get__ "phone" assigned = Ok (VStr "(800) 555-1212") ∧
  ∀ other_name, other_name ≠ "phone" →
    Validation.PhoneNumber.__get__ other_name assigned
    = Validation.PhoneNumber.__get__ other_name ∅.
Proof.
  apply (phone_accepted "phone" ∅ (VStr "(800) 555-1212")). reflexivity.
Defined.

Lemma phone_rejected_witness :
  Validation.PhoneNumber.__set__ "phone" ∅ (VStr "unknown")
  = (∅, Raise AttributeError).
Proof.
  apply (phone_rejected "phone" ∅ (VStr "unknown")). discriminate.
Defined.

Lemma phone_invariant_witness :
  let after :=
    (Validation.PhoneNumber.__set__ "phone" ∅ (VStr "(800) 555-1212")).1 in
  (∀ v, after !! "_phone" = Some v →
        Validation.re_match Validation.pattern v = Ok true) ∧
  (Validation.PhoneNumber.__get__ "phone" after = Raise AttributeError ∨
   ∃ v, Validation.PhoneNumber.__get__ "phone" after = Ok v ∧
        Validation.re_match Validation.pattern v = Ok true).
Proof.
  apply (phone_invariant "phone" ∅ (VStr "(800) 555-1212")).
  intros v Hv. rewrite lookup_empty in Hv. discriminate.
Defined.
